(** * Computer-vision workshop notebooks: SDK configuration embedded in Rocq

    The notebooks of this repository build configuration objects of the
    managed ML SDK (processors, estimators, pipeline steps, models) and
    hand them to the service.  This file embeds those objects as Rocq data,
    builds them the way the notebook cells do (including the [for t in
    training_options] loops), and gives the orchestration service's
    meaning of the objects that the claims rely on: evaluation of
    [ConditionStep]s, data dependencies between steps, and the order of
    S3 reads and writes across the standalone notebooks.

    Floating point constants of the notebooks (0.7, 0.5, 0.8, 0.4) are
    modelled as the rationals they denote. *)

From Stdlib Require Import String Ascii List ZArith QArith Bool Lia.
Import ListNotations.
Open Scope string_scope.
Set Warnings "-register-all".

(** ** SDK values *)

(** A value placed in a step argument: a plain Python constant, or a
    pipeline variable that the orchestrator resolves at execution time
    ([ParameterString]/[ParameterInteger], [step.properties....], [JsonGet]). *)
Inductive pvar : Type :=
| PStr (s : string)
| PInt (z : Z)
| PFloat (q : Q)
| PParameter (name : string)
| PProperty (step_name : string) (path : list string)
| PJsonGet (step_name : string) (property_file : string) (json_path : string).

Inductive parameter : Type :=
| ParameterInteger (name : string) (default_value : Z)
| ParameterString (name : string) (default_value : string).

Definition parameter_name (p : parameter) : string :=
  match p with
  | ParameterInteger n _ | ParameterString n _ => n
  end.

Record CacheConfig := mkCacheConfig {
  enable_caching : bool;
  expire_after : string }.

Inductive session : Type := DefaultSession | PipelineSession.

Inductive processor : Type :=
| SKLearnProcessor (base_job_name : string) (framework_version : string)
    (role : string) (instance_type : pvar) (instance_count : pvar)
| ScriptProcessor (base_job_name : string) (command : list string)
    (image_uri : string) (role : string) (instance_count : pvar)
    (instance_type : pvar) (sagemaker_session : session).

Record ProcessingInput := mkProcessingInput {
  pi_source : pvar;
  pi_destination : string }.

(** [output_name] and [destination] are optional keyword arguments. *)
Record ProcessingOutput := mkProcessingOutput {
  po_output_name : option string;
  po_source : string;
  po_destination : option string }.

(** The arguments of [processor.run(...)] or of a [ProcessingStep]
    ([arguments] / [job_arguments] is [None] when not passed). *)
Record ProcessingJob := mkProcessingJob {
  pj_processor : processor;
  pj_code : string;
  pj_arguments : option (list pvar);
  pj_inputs : list ProcessingInput;
  pj_outputs : list ProcessingOutput }.

Record PropertyFile := mkPropertyFile {
  pf_name : string;
  pf_output_name : string;
  pf_path : string }.

Record TrainingInput := mkTrainingInput {
  ti_s3_data : pvar;
  ti_distribution : string }.

Inductive hp_value : Type :=
| HInt (z : Z)
| HFloat (q : Q)
| HStr (s : string).

(** [{'parameter_server': {'enabled': b}}] *)
Record Distribution := mkDistribution { parameter_server_enabled : bool }.

(** Keyword arguments of the [TensorFlow] estimator; [None] where the
    notebook does not pass the argument. *)
Record TensorFlow := mkTensorFlow {
  tf_entry_point : string;
  tf_source_dir : string;
  tf_output_path : option string;
  tf_instance_type : pvar;
  tf_instance_count : pvar;
  tf_distribution : option Distribution;
  tf_hyperparameters : list (string * hp_value);
  tf_metric_definitions : list (string * string);
  tf_role : string;
  tf_use_spot_instances : option bool;
  tf_max_run : option Z;
  tf_max_wait : option Z;
  tf_checkpoint_s3_uri : option string;
  tf_framework_version : string;
  tf_py_version : string;
  tf_base_job_name : string;
  tf_script_mode : bool;
  tf_tags : list (list (string * string)) }.

Inductive condition : Type :=
| ConditionGreaterThanOrEqualTo (left : pvar) (right : pvar).

(** Pipeline steps.  [RegisterModel] is a step collection; its
    [model_metrics] is the [MetricsSource] S3 URI. *)
Inductive step : Type :=
| ProcessingStep (name : string) (job : ProcessingJob)
    (cache_config : option CacheConfig) (property_files : list PropertyFile)
| TrainingStep (name : string) (estimator : TensorFlow)
    (inputs : list (string * TrainingInput)) (cache_config : option CacheConfig)
| RegisterModel (name : string) (estimator : TensorFlow) (model_data : pvar)
    (content_types response_types inference_instances transform_instances : list string)
    (model_package_group_name : string) (model_statistics_s3_uri : string)
| ConditionStep (name : string) (conditions : list condition)
    (if_steps else_steps : list step).

Definition step_name (s : step) : string :=
  match s with
  | ProcessingStep n _ _ _ | TrainingStep n _ _ _ | RegisterModel n _ _ _ _ _ _ _ _
  | ConditionStep n _ _ _ => n
  end.

Definition step_cache_config (s : step) : option CacheConfig :=
  match s with
  | ProcessingStep _ _ c _ | TrainingStep _ _ _ c => c
  | _ => None
  end.

Record Pipeline := mkPipeline {
  pl_name : string;
  pl_parameters : list parameter;
  pl_steps : list step }.

(** [s.properties.ProcessingOutputConfig.Outputs[name].S3Output.S3Uri] *)
Definition processing_output_uri (s : step) (output_name : string) : pvar :=
  PProperty (step_name s)
    ["ProcessingOutputConfig"; "Outputs"; output_name; "S3Output"; "S3Uri"].

(** [s.properties.ModelArtifacts.S3ModelArtifacts] *)
Definition model_artifacts (s : step) : pvar :=
  PProperty (step_name s) ["ModelArtifacts"; "S3ModelArtifacts"].

(** Python's [str.lower] on ASCII text. *)
Definition lower_ascii (c : ascii) : ascii :=
  let n := nat_of_ascii c in
  if andb (Nat.leb 65 n) (Nat.leb n 90) then ascii_of_nat (n + 32) else c.

Fixpoint lower (s : string) : string :=
  match s with
  | EmptyString => EmptyString
  | String c s' => String (lower_ascii c) (lower s')
  end.

(** ** The pipeline notebook (src/unnamed/part_001) *)

Definition prefix : string := "cv-sagemaker-immersionday".
Definition model_package_group_name : string := prefix ++ "-model-group".
Definition pipeline_name : string := prefix ++ "-pipeline".
Definition container_name : string := "sagemaker-tf-container".
Definition container_version : string := "2.0".

Section PipelineNotebook.

(** [sagemaker_session.default_bucket()], the execution role, the account
    and region of the session, and the [uuid.uuid4()] of [output_s3_uri]. *)
Variables bucket role account region run_uuid : string.
(** S3 URI the SDK assigns to the output channel of a processing step
    declared without a destination (argument: the step name). *)
Variable generated_output_uri : string -> string.

Definition s3_raw_data : string := "s3://" ++ bucket ++ "/" ++ prefix ++ "/full/data".

Definition image_uri : string :=
  account ++ ".dkr.ecr." ++ region ++ ".amazonaws.com/" ++ container_name
  ++ ":" ++ container_version.

Definition processing_instance_count : parameter :=
  ParameterInteger "ProcessingInstanceCount" 1.
Definition input_data : parameter := ParameterString "InputDataUrl" s3_raw_data.
Definition input_annotation : parameter :=
  ParameterString "AnnotationFileName" "classes.txt".
Definition class_selection : parameter :=
  ParameterString "ClassSelection" "13, 17, 35, 36, 47, 68, 73, 87".

Definition processing_instance_type : string := "ml.m5.xlarge".
Definition training_instance_count : Z := 1.
Definition training_instance_type : string := "ml.c5.4xlarge".

Definition cache_config : CacheConfig := mkCacheConfig true "30d".

Definition sklearn_processor : processor :=
  SKLearnProcessor (prefix ++ "-preprocess") "0.20.0" role
    (PStr processing_instance_type)
    (PParameter (parameter_name processing_instance_count)).

Definition output_s3_uri : string :=
  "s3://" ++ bucket ++ "/" ++ prefix ++ "/outputs/pipelines/" ++ run_uuid.

Definition step_process : step :=
  ProcessingStep "BirdClassificationPreProcess"
    {| pj_processor := sklearn_processor;
       pj_code := "preprocess.py";
       pj_arguments := Some [PStr "--classes"; PParameter (parameter_name class_selection);
                             PStr "--input-data"; PParameter (parameter_name input_annotation)];
       pj_inputs := [mkProcessingInput (PParameter (parameter_name input_data))
                                       "/opt/ml/processing/input"];
       pj_outputs :=
         [mkProcessingOutput (Some "train_data") "/opt/ml/processing/output/train"
            (Some (output_s3_uri ++ "/train"));
          mkProcessingOutput (Some "val_data") "/opt/ml/processing/output/validation"
            (Some (output_s3_uri ++ "/validation"));
          mkProcessingOutput (Some "test_data") "/opt/ml/processing/output/test"
            (Some (output_s3_uri ++ "/test"));
          mkProcessingOutput (Some "manifest") "/opt/ml/processing/output/manifest"
            (Some (output_s3_uri ++ "/manifest"))] |}
    (Some cache_config) [].

Definition TF_FRAMEWORK_VERSION : string := "2.4.1".

Definition hyperparameters : list (string * hp_value) :=
  [("initial_epochs", HInt 5); ("batch_size", HInt 8); ("fine_tuning_epochs", HInt 20);
   ("dropout", HFloat (4 # 10)); ("data_dir", HStr "/opt/ml/input/data")].

Definition metric_definitions : list (string * string) :=
  [("loss", "loss: ([0-9\.]+)"); ("acc", "accuracy: ([0-9\.]+)");
   ("val_loss", "val_loss: ([0-9\.]+)"); ("val_acc", "val_accuracy: ([0-9\.]+)")].

Definition distribution : Distribution :=
  if Z.gtb training_instance_count 1 then mkDistribution true else mkDistribution false.
Definition DISTRIBUTION_MODE : string :=
  if Z.gtb training_instance_count 1 then "ShardedByS3Key" else "FullyReplicated".

Definition train_in : TrainingInput :=
  mkTrainingInput (processing_output_uri step_process "train_data") DISTRIBUTION_MODE.
Definition test_in : TrainingInput :=
  mkTrainingInput (processing_output_uri step_process "test_data") DISTRIBUTION_MODE.
Definition val_in : TrainingInput :=
  mkTrainingInput (processing_output_uri step_process "val_data") DISTRIBUTION_MODE.

Definition inputs : list (string * TrainingInput) :=
  [("train", train_in); ("test", test_in); ("validation", val_in)].

Definition training_options : list string := ["Spot"; "OnDemand"].

(** Body of the first loop over [training_options]: the estimator for [t]. *)
Definition training_estimator (t : string) : TensorFlow :=
  let tags := [("Key", "TrainingType"); ("Value", t)] in
  let model_path := output_s3_uri ++ "/models" in
  let checkpoint_s3_uri := output_s3_uri ++ "/outputcheckpoints" in
  if String.eqb (lower t) "spot" then
    {| tf_entry_point := "train-mobilenet.py"; tf_source_dir := "code";
       tf_output_path := Some model_path;
       tf_instance_type := PStr training_instance_type;
       tf_instance_count := PInt training_instance_count;
       tf_distribution := Some distribution;
       tf_hyperparameters := hyperparameters;
       tf_metric_definitions := metric_definitions; tf_role := role;
       tf_use_spot_instances := Some true;
       tf_max_run := Some (60 * 60 * 10)%Z;
       tf_max_wait := Some (60 * 60 * 12)%Z;
       tf_checkpoint_s3_uri := Some checkpoint_s3_uri;
       tf_framework_version := TF_FRAMEWORK_VERSION; tf_py_version := "py37";
       tf_base_job_name := prefix; tf_script_mode := true; tf_tags := [tags] |}
  else
    {| tf_entry_point := "train-mobilenet.py"; tf_source_dir := "code";
       tf_output_path := Some model_path;
       tf_instance_type := PStr training_instance_type;
       tf_instance_count := PInt training_instance_count;
       tf_distribution := Some distribution;
       tf_hyperparameters := hyperparameters;
       tf_metric_definitions := metric_definitions; tf_role := role;
       tf_use_spot_instances := None; tf_max_run := None; tf_max_wait := None;
       tf_checkpoint_s3_uri := None;
       tf_framework_version := TF_FRAMEWORK_VERSION; tf_py_version := "py37";
       tf_base_job_name := prefix; tf_script_mode := true; tf_tags := [tags] |}.

Definition step_train (t : string) : step :=
  TrainingStep ("BirdClassification" ++ t ++ "Train") (training_estimator t) inputs
    (Some cache_config).

(** [training_steps], [training_estimators] and [models] as the dicts the
    loop fills, in insertion order. *)
Definition training_steps : list (string * step) :=
  map (fun t => (t, step_train t)) training_options.
Definition training_estimators : list (string * TensorFlow) :=
  map (fun t => (t, training_estimator t)) training_options.
Definition models (t : string) : pvar := model_artifacts (step_train t).

Definition eval_processor : processor :=
  ScriptProcessor (prefix ++ "-evaluation") ["python3"] image_uri role
    (PParameter (parameter_name processing_instance_count))
    (PStr processing_instance_type) PipelineSession.

Definition evaluation_report (t : string) : PropertyFile :=
  mkPropertyFile ("Evaluation" ++ t ++ "Report") "evaluation" "evaluation.json".

Definition eval_job (t : string) : ProcessingJob :=
  {| pj_processor := eval_processor;
     pj_code := "evaluation.py";
     pj_arguments := None;
     pj_inputs :=
       [mkProcessingInput (processing_output_uri step_process "test_data")
                          "/opt/ml/processing/input/test";
        mkProcessingInput (processing_output_uri step_process "manifest")
                          "/opt/ml/processing/input/manifest";
        mkProcessingInput (models t) "/opt/ml/processing/model"];
     pj_outputs :=
       [mkProcessingOutput (Some "evaluation") "/opt/ml/processing/evaluation" None] |}.

Definition step_eval (t : string) : step :=
  ProcessingStep ("BirdClassification" ++ t ++ "Eval") (eval_job t) (Some cache_config)
    [evaluation_report t].

(** [eval_steps[t].arguments["ProcessingOutputConfig"]["Outputs"][0]["S3Output"]["S3Uri"]]
    is the URI the SDK generated for the destination-less output. *)
Definition step_register (t : string) : step :=
  RegisterModel ("Register" ++ t ++ "Model") (training_estimator t) (models t)
    ["application/x-image"] ["application/json"] ["ml.t2.medium"; "ml.m5.large"]
    ["ml.m5.large"] model_package_group_name
    (generated_output_uri (step_name (step_eval t)) ++ "/evaluation.json").

Definition cond_gte (t : string) : condition :=
  ConditionGreaterThanOrEqualTo
    (PJsonGet (step_name (step_eval t)) (pf_name (evaluation_report t))
              "multiclass_classification_metrics.accuracy.value")
    (PFloat (7 # 10)).

Definition step_cond (t : string) : step :=
  ConditionStep ("BirdClassification" ++ t ++ "Condition") [cond_gte t]
    [step_register t] [].

(** [steps = [step_process]] followed by the three appending loops. *)
Definition steps : list step :=
  [step_process] ++ map step_train training_options ++ map step_eval training_options
  ++ map step_cond training_options.

Definition pipeline : Pipeline :=
  {| pl_name := pipeline_name;
     pl_parameters := [processing_instance_count; input_data; input_annotation;
                       class_selection];
     pl_steps := steps |}.

End PipelineNotebook.

(** ** Execution of the pipeline by the orchestration service *)

(** The parsed content of a property file ([evaluation.json]). *)
Inductive json : Type :=
| JNull
| JBool (b : bool)
| JNum (q : Q)
| JStr (s : string)
| JArr (xs : list json)
| JObj (fields : list (string * json)).

Fixpoint json_field (k : string) (fs : list (string * json)) : option json :=
  match fs with
  | [] => None
  | (k', v) :: fs' => if String.eqb k k' then Some v else json_field k fs'
  end.

Fixpoint json_lookup (ks : list string) (j : json) : option json :=
  match ks with
  | [] => Some j
  | k :: ks' =>
      match j with
      | JObj fs => match json_field k fs with
                   | Some v => json_lookup ks' v
                   | None => None
                   end
      | _ => None
      end
  end.

(** A dotted JSON path split at its dots. *)
Fixpoint split_on (sep : ascii) (s : string) : list string :=
  match s with
  | EmptyString => [EmptyString]
  | String c s' =>
      let parts := split_on sep s' in
      if Ascii.eqb c sep then EmptyString :: parts
      else match parts with
           | p :: ps => String c p :: ps
           | [] => [String c EmptyString]
           end
  end.

Section Execution.

(** [reports s f]: the property file [f] written by step [s] in this
    execution, parsed ([None] when it is missing or not valid JSON). *)
Variable reports : string -> string -> option json.

Definition resolve_number (v : pvar) : option Q :=
  match v with
  | PFloat q => Some q
  | PInt z => Some (inject_Z z)
  | PJsonGet s f path =>
      match reports s f with
      | Some j => match json_lookup (split_on "." path) j with
                  | Some (JNum q) => Some q
                  | _ => None
                  end
      | None => None
      end
  | _ => None
  end.

(** [None]: the condition cannot be evaluated and the step fails. *)
Definition eval_condition (c : condition) : option bool :=
  match c with
  | ConditionGreaterThanOrEqualTo l r =>
      match resolve_number l, resolve_number r with
      | Some a, Some b => Some (Qle_bool b a)
      | _, _ => None
      end
  end.

(** A [ConditionStep]'s conditions must all hold. *)
Fixpoint eval_conditions (cs : list condition) : option bool :=
  match cs with
  | [] => Some true
  | c :: cs' =>
      match eval_condition c, eval_conditions cs' with
      | Some b1, Some b2 => Some (b1 && b2)
      | _, _ => None
      end
  end.

(** Names of the steps that run to completion, every job succeeding; a
    condition step runs its if-branch or its else-branch. *)
Fixpoint run_step (s : step) : list string :=
  match s with
  | ConditionStep n cs ifs els =>
      let fix run_steps (ss : list step) : list string :=
        match ss with
        | [] => []
        | s' :: ss' => (run_step s' ++ run_steps ss')%list
        end in
      match eval_conditions cs with
      | Some true => n :: run_steps ifs
      | Some false => n :: run_steps els
      | None => []
      end
  | _ => [step_name s]
  end.

Definition run_pipeline (p : Pipeline) : list string :=
  flat_map run_step (pl_steps p).

End Execution.

(** The accuracy the evaluation step of [t] reports. *)
Definition reported_accuracy (reports : string -> string -> option json) (t : string)
  : option json :=
  match reports ("BirdClassification" ++ t ++ "Eval") ("Evaluation" ++ t ++ "Report") with
  | Some j => json_lookup ["multiclass_classification_metrics"; "accuracy"; "value"] j
  | None => None
  end.

(** Every step of a pipeline with the steps nested in condition branches. *)
Fixpoint step_and_substeps (s : step) : list step :=
  s :: match s with
       | ConditionStep _ _ ifs els =>
           let fix go (l : list step) : list step :=
             match l with
             | [] => []
             | x :: l' => (step_and_substeps x ++ go l')%list
             end in
           (go ifs ++ go els)%list
       | _ => []
       end.

Definition all_steps (p : Pipeline) : list step := flat_map step_and_substeps (pl_steps p).

(** ** Data dependencies the orchestrator infers *)

(** Steps a value refers to ([step.properties...] and [JsonGet]). *)
Definition pvar_refs (v : pvar) : list string :=
  match v with
  | PProperty s _ | PJsonGet s _ _ => [s]
  | _ => []
  end.

Definition processor_args (pr : processor) : list pvar :=
  match pr with
  | SKLearnProcessor _ _ _ ity icnt => [ity; icnt]
  | ScriptProcessor _ _ _ _ icnt ity _ => [icnt; ity]
  end.

Definition estimator_args (e : TensorFlow) : list pvar :=
  [tf_instance_type e; tf_instance_count e].

Definition condition_args (c : condition) : list pvar :=
  match c with ConditionGreaterThanOrEqualTo l r => [l; r] end.

(** Data inputs of a processing or training step. *)
Definition step_input_sources (s : step) : list pvar :=
  match s with
  | ProcessingStep _ j _ _ => map pi_source (pj_inputs j)
  | TrainingStep _ _ ins _ => map (fun i => ti_s3_data (snd i)) ins
  | _ => []
  end.

(** Every value a step is built from. *)
Definition step_args (s : step) : list pvar :=
  match s with
  | ProcessingStep _ j _ _ =>
      processor_args (pj_processor j)
      ++ match pj_arguments j with Some a => a | None => [] end
      ++ step_input_sources s
  | TrainingStep _ e _ _ => estimator_args e ++ step_input_sources s
  | RegisterModel _ e md _ _ _ _ _ _ => estimator_args e ++ [md]
  | ConditionStep _ cs _ _ => flat_map condition_args cs
  end%list.

Definition step_refs (s : step) : list string := flat_map pvar_refs (step_args s).

(** Edges [(a, b)]: [b] cannot start before [a] has finished.  A step runs
    after the steps it refers to; a branch step runs after its condition. *)
Definition step_edges (s : step) : list (string * string) :=
  map (fun r => (r, step_name s)) (step_refs s)
  ++ match s with
     | ConditionStep n _ ifs els => map (fun s' => (n, step_name s')) (ifs ++ els)
     | _ => []
     end%list.

Definition pipeline_edges (p : Pipeline) : list (string * string) :=
  flat_map step_edges (all_steps p).

Fixpoint index_of (x : string) (l : list string) : option nat :=
  match l with
  | [] => None
  | y :: l' => if String.eqb x y then Some 0%nat
               else option_map S (index_of x l')
  end.

(** [a] comes before [b] in an execution order. *)
Definition beforeb (order : list string) (a b : string) : bool :=
  match index_of a order, index_of b order with
  | Some i, Some j => Nat.ltb i j
  | _, _ => false
  end.

(** An execution order respects every dependency edge. *)
Definition consistent_order (order : list string) (edges : list (string * string)) : bool :=
  forallb (fun e => beforeb order (fst e) (snd e)) edges.

(** ** S3 traffic of a job *)

Inductive s3_event : Type :=
| S3Write (loc : string)
| S3Read (loc : string).

(** A processing job reads its constant input sources and then writes the
    outputs that have an explicit destination. *)
Definition job_s3_events (j : ProcessingJob) : list s3_event :=
  flat_map (fun i => match pi_source i with PStr src => [S3Read src] | _ => [] end)
           (pj_inputs j)
  ++ flat_map (fun o => match po_destination o with Some d => [S3Write d] | None => [] end)
              (pj_outputs j).

Definition input_s3_data (ins : list (string * TrainingInput)) : list s3_event :=
  flat_map (fun i => match ti_s3_data (snd i) with PStr src => [S3Read src] | _ => [] end) ins.

(** ** Preprocessing notebook (src/01_preprocessing/data_preprocessing.ipynb) *)

Module Preprocessing.
Section Notebook.
Variables bucket role : string.

Definition output_prefix : string := prefix ++ "/outputs".
Definition output_s3_uri : string := "s3://" ++ bucket ++ "/" ++ output_prefix.

Definition class_selection : string := "13, 17, 35, 36, 47, 68, 73, 87".
Definition input_annotation : string := "classes.txt".
Definition processing_instance_type : string := "ml.m5.xlarge".
Definition processing_instance_count : Z := 1.

Definition sklearn_processor : processor :=
  SKLearnProcessor (prefix ++ "-preprocess") "0.20.0" role
    (PStr processing_instance_type) (PInt processing_instance_count).

(** [sklearn_processor.run(...)] *)
Definition preprocessing_job : ProcessingJob :=
  {| pj_processor := sklearn_processor;
     pj_code := "preprocessing.py";
     pj_arguments := Some [PStr "--classes"; PStr class_selection;
                           PStr "--input-data"; PStr input_annotation];
     pj_inputs := [mkProcessingInput (PStr (s3_raw_data bucket)) "/opt/ml/processing/input"];
     pj_outputs :=
       [mkProcessingOutput None "/opt/ml/processing/output/train"
          (Some (output_s3_uri ++ "/train"));
        mkProcessingOutput None "/opt/ml/processing/output/valid"
          (Some (output_s3_uri ++ "/valid"));
        mkProcessingOutput None "/opt/ml/processing/output/test"
          (Some (output_s3_uri ++ "/test"));
        mkProcessingOutput None "/opt/ml/processing/output/manifest"
          (Some (output_s3_uri ++ "/manifest"))] |}.

(** [!wget 'https://s3.amazonaws.com/fast-ai-imageclas/CUB_200_2011.tgz']:
    the public S3 object of the raw dataset. *)
Definition public_dataset : string :=
  "https://s3.amazonaws.com/fast-ai-imageclas/CUB_200_2011.tgz".

(** Download of the public dataset, upload of the raw data
    ([aws s3 cp --recursive ./CUB_200_2011 $s3_raw_data]), the processing
    job, and the listing of [output_prefix]. *)
Definition s3_events : list s3_event :=
  [S3Read public_dataset; S3Write (s3_raw_data bucket)] ++ job_s3_events preprocessing_job
  ++ [S3Read ("s3://" ++ bucket ++ "/" ++ output_prefix)].

End Notebook.
End Preprocessing.

(** ** Training notebook (src/02_training/training.ipynb) *)

Inductive hp_range : Type :=
| IntegerParameter (min_value max_value : Z)
| ContinuousParameter (min_value max_value : Q)
| CategoricalParameter (values : list Z).

Record HyperparameterTuner := mkHyperparameterTuner {
  ht_estimator : TensorFlow;
  ht_objective_metric_name : string;
  ht_hyperparameter_ranges : list (string * hp_range);
  ht_metric_definitions : list (string * string);
  ht_objective_type : string;
  ht_max_jobs : Z;
  ht_max_parallel_jobs : Z;
  ht_base_tuning_job_name : string }.

Module Training.
Section Notebook.
Variables bucket role : string.
(** [tuner.best_estimator().latest_training_job.describe()['ModelArtifacts']['S3ModelArtifacts']]:
    the artifact the best tuning job wrote. *)
Variable best_model_uri : string.

Definition processed_data_s3_uri : string := "s3://" ++ bucket ++ "/" ++ prefix ++ "/outputs".
Definition model_output_path : string := "s3://" ++ bucket ++ "/" ++ prefix ++ "/outputs/model".

Definition metric_definitions : list (string * string) :=
  [("loss", "loss: ([0-9\.]+)"); ("acc", "accuracy: ([0-9\.]+)");
   ("val_loss", "val_loss: ([0-9\.]+)"); ("val_acc", "val_accuracy: ([0-9\.]+)")].

Definition TF_FRAMEWORK_VERSION : string := "2.4.1".
Definition DISTRIBUTION : Distribution := mkDistribution false.
Definition DISTRIBUTION_MODE : string := "FullyReplicated".
Definition training_instance_type : string := "ml.c5.4xlarge".
Definition training_instance_count : Z := 1.
Definition shared_hyperparameters : list (string * hp_value) :=
  [("initial_epochs", HInt 5); ("fine_tuning_epochs", HInt 20);
   ("data_dir", HStr "/opt/ml/input/data")].

Definition estimator : TensorFlow :=
  {| tf_entry_point := "train-mobilenet.py"; tf_source_dir := "code";
     tf_output_path := None;
     tf_instance_type := PStr training_instance_type;
     tf_instance_count := PInt training_instance_count;
     tf_distribution := None;
     tf_hyperparameters := shared_hyperparameters;
     tf_metric_definitions := metric_definitions; tf_role := role;
     tf_use_spot_instances := None; tf_max_run := None; tf_max_wait := None;
     tf_checkpoint_s3_uri := None;
     tf_framework_version := TF_FRAMEWORK_VERSION; tf_py_version := "py37";
     tf_base_job_name := prefix; tf_script_mode := true; tf_tags := [] |}.

Definition hyperparameter_ranges : list (string * hp_range) :=
  [("dropout", ContinuousParameter (5 # 10) (8 # 10));
   ("batch-size", CategoricalParameter [8; 16; 32; 64; 128; 256]%Z)].

Definition objective_metric_name : string := "val_acc".

Definition train_in : TrainingInput :=
  mkTrainingInput (PStr (processed_data_s3_uri ++ "/train")) DISTRIBUTION_MODE.
Definition val_in : TrainingInput :=
  mkTrainingInput (PStr (processed_data_s3_uri ++ "/valid")) DISTRIBUTION_MODE.
Definition inputs : list (string * TrainingInput) :=
  [("train", train_in); ("validation", val_in)].

Definition tuner : HyperparameterTuner :=
  {| ht_estimator := estimator;
     ht_objective_metric_name := objective_metric_name;
     ht_hyperparameter_ranges := hyperparameter_ranges;
     ht_metric_definitions := metric_definitions;
     ht_objective_type := "Maximize";
     ht_max_jobs := 2; ht_max_parallel_jobs := 2;
     ht_base_tuning_job_name := "cv-hpo" |}.

(** [!aws s3 cp {best_model_uri} {model_output_path}/model.tar.gz]: source
    and destination. *)
Definition copy_best_model : string * string :=
  (best_model_uri, model_output_path ++ "/model.tar.gz").

(** [tuner.fit(inputs)] reads the channels and its training jobs write
    their artifacts; the copy reads the best one and writes the shared
    model path. *)
Definition s3_events : list s3_event :=
  input_s3_data inputs ++ [S3Write best_model_uri]
  ++ [S3Read (fst copy_best_model); S3Write (snd copy_best_model)].

End Notebook.
End Training.

(** ** Evaluation notebook (src/unnamed/part_000) *)

Module Evaluation.
Section Notebook.
Variables bucket role account region : string.

Definition s3_images : string := "s3://" ++ bucket ++ "/" ++ prefix ++ "/outputs/test/".
Definition s3_manifest : string := "s3://" ++ bucket ++ "/" ++ prefix ++ "/outputs/manifest".
Definition s3_model : string := "s3://" ++ bucket ++ "/" ++ prefix ++ "/outputs/model/".

Definition ecr_image : string :=
  account ++ ".dkr.ecr." ++ region ++ ".amazonaws.com/" ++ container_name
  ++ ":" ++ container_version.

Definition s3_evaluation_output : string :=
  "s3://" ++ bucket ++ "/" ++ prefix ++ "/outputs/evaluation".

Definition script_processor : processor :=
  ScriptProcessor prefix ["python3"] ecr_image role (PInt 1) (PStr "ml.m5.xlarge")
    DefaultSession.

(** [script_processor.run(...)] *)
Definition evaluation_job : ProcessingJob :=
  {| pj_processor := script_processor;
     pj_code := "evaluation.py";
     pj_arguments := Some [PStr "--model-file"; PStr "model.tar.gz"];
     pj_inputs :=
       [mkProcessingInput (PStr s3_images) "/opt/ml/processing/input/test";
        mkProcessingInput (PStr s3_manifest) "/opt/ml/processing/input/manifest";
        mkProcessingInput (PStr s3_model) "/opt/ml/processing/model"];
     pj_outputs :=
       [mkProcessingOutput (Some "evaluation") "/opt/ml/processing/evaluation"
          (Some s3_evaluation_output)] |}.

Definition eval_matrix_key : string := prefix ++ "/outputs/evaluation/evaluation.json".
Definition cf_matrix_file : string :=
  "s3://" ++ bucket ++ "/" ++ prefix ++ "/outputs/evaluation/confusion_matrix.png".

(** The job, then [s3.Object(bucket, eval_matrix_key)] and
    [aws s3 cp $cf_matrix_file .]. *)
Definition s3_events : list s3_event :=
  job_s3_events evaluation_job
  ++ [S3Read ("s3://" ++ bucket ++ "/" ++ eval_matrix_key); S3Read cf_matrix_file].

End Notebook.
End Evaluation.

(** ** Deployment notebook (src/05_deployment/sagemaker-deploy-model-for-inference.ipynb) *)

Record TensorFlowModel := mkTensorFlowModel {
  tfm_model_data : string;
  tfm_role : string;
  tfm_framework_version : string }.

Record ServerlessInferenceConfig := mkServerlessInferenceConfig {
  memory_size_in_mb : Z;
  max_concurrency : Z }.

(** The keyword arguments of [model.deploy(...)]. *)
Inductive deploy_config : Type :=
| ServerlessDeploy (serverless_inference_config : ServerlessInferenceConfig)
| RealTimeDeploy (initial_instance_count : Z) (instance_type : string).

Record Predictor := mkPredictor { endpoint_name : string }.

(** "Run either Option 1 or Option 2". *)
Inductive deployment_option : Type := Option1Serverless | Option2RealTime.

Module Deployment.
Section Notebook.
Variables bucket role : string.
(** Name the service gives the endpoint of a deployment. *)
Variable endpoint_name_for : TensorFlowModel -> deploy_config -> string.

(** Notebook variables the cells assign, and the endpoints created. *)
Record state := mkState {
  model : option TensorFlowModel;
  predictor : option Predictor;
  tf_endpoint_name : option string;
  endpoints : list (TensorFlowModel * deploy_config * string) }.

Definition init : state := mkState None None None [].

Definition TF_FRAMEWORK_VERSION : string := "2.4.1".
Definition ENDPOINT_INSTANCE_TYPE : string := "ml.c5.4xlarge".
Definition bird_model_path : string :=
  "s3://" ++ bucket ++ "/" ++ prefix ++ "/outputs/model/model.tar.gz".

Definition serverless_inf_config : ServerlessInferenceConfig :=
  mkServerlessInferenceConfig 4096 5.

(** [model.deploy(...)] creates an endpoint and returns its predictor. *)
Definition deploy (m : TensorFlowModel) (c : deploy_config) (st : state) : Predictor * state :=
  let n := endpoint_name_for m c in
  (mkPredictor n,
   mkState (model st) (predictor st) (tf_endpoint_name st) (endpoints st ++ [(m, c, n)])%list).

(** Cells 13 (option 1) and 17 (option 2): build the model, deploy it,
    [tf_endpoint_name = str(predictor.endpoint_name)]. *)
Definition deploy_cell (opt : deployment_option) (st : state) : state :=
  let m := mkTensorFlowModel bird_model_path role TF_FRAMEWORK_VERSION in
  let c := match opt with
           | Option1Serverless => ServerlessDeploy serverless_inf_config
           | Option2RealTime => RealTimeDeploy 1 ENDPOINT_INSTANCE_TYPE
           end in
  let '(p, st1) := deploy m c st in
  mkState (Some m) (Some p) (Some (endpoint_name p)) (endpoints st1).

Definition placeholder_endpoint_name : string := "<SAGEMAKER DEPLOYED ENDPOINT NAME>".

(** Cell 21: [tf_endpoint_name='<SAGEMAKER DEPLOYED ENDPOINT NAME>'] and
    [predictor = Predictor(endpoint_name=tf_endpoint_name, ...)]. *)
Definition inference_predictor_cell (st : state) : state :=
  mkState (model st) (Some (mkPredictor placeholder_endpoint_name))
    (Some placeholder_endpoint_name) (endpoints st).

(** The notebook run with one deployment option, up to the predictions
    (cells 23-27 use [predictor] and assign nothing else of the state). *)
Definition run (opt : deployment_option) : state :=
  inference_predictor_cell (deploy_cell opt init).

Definition classes_file : string :=
  "s3://" ++ bucket ++ "/" ++ prefix ++ "/full/data/classes.txt".

(** The deployment reads [model_data]; cell 23 reads [classes_file];
    cell 25 samples images under [f'{prefix}/outputs/test'] of [bucket]. *)
Definition s3_events : list s3_event :=
  [S3Read bird_model_path; S3Read classes_file;
   S3Read ("s3://" ++ bucket ++ "/" ++ prefix ++ "/outputs/test")].

End Notebook.
End Deployment.

(** ** S3 locations across the standalone notebooks, run in module order *)

Definition notebook_s3_events (bucket role account region best_model_uri : string)
  : list (list s3_event) :=
  [Preprocessing.s3_events bucket role; Training.s3_events bucket best_model_uri;
   Evaluation.s3_events bucket role account region; Deployment.s3_events bucket].

Definition s3_reads (evs : list s3_event) : list string :=
  flat_map (fun e => match e with S3Read l => [l] | _ => [] end) evs.
Definition s3_writes (evs : list s3_event) : list string :=
  flat_map (fun e => match e with S3Write l => [l] | _ => [] end) evs.

(** Location [r] lies within written location [w]: [r] is a key prefix of
    [w] (equal to it, or a folder containing it), or [r] lies in the
    folder [w]. *)
Definition s3_within (r w : string) : Prop :=
  r = w \/ (exists k, w = r ++ k) \/ (exists k, r = w ++ "/" ++ k).

(** [s3://{bucket}/{prefix}/<key>] *)
Definition workshop_s3 (bucket key : string) : string :=
  "s3://" ++ bucket ++ "/" ++ prefix ++ "/" ++ key.

(** ** Accessors used by the claims *)

Definition step_job (s : step) : option ProcessingJob :=
  match s with
  | ProcessingStep _ j _ _ => Some j
  | _ => None
  end.

Definition step_estimator (s : step) : option TensorFlow :=
  match s with
  | TrainingStep _ e _ _ | RegisterModel _ e _ _ _ _ _ _ _ => Some e
  | _ => None
  end.

Definition is_condition_step (s : step) : bool :=
  match s with
  | ConditionStep _ _ _ _ => true
  | _ => false
  end.

Definition processor_command (pr : processor) : list string :=
  match pr with
  | ScriptProcessor _ c _ _ _ _ _ => c
  | SKLearnProcessor _ _ _ _ _ => []
  end.

Definition processor_instance_type (pr : processor) : pvar :=
  match pr with
  | SKLearnProcessor _ _ _ ity _ | ScriptProcessor _ _ _ _ _ ity _ => ity
  end.

Definition processor_instance_count (pr : processor) : pvar :=
  match pr with
  | SKLearnProcessor _ _ _ _ icnt | ScriptProcessor _ _ _ _ icnt _ _ => icnt
  end.

(** Command, code, container mount points of the inputs, and name and
    container source of the outputs. *)
Definition job_shape (j : ProcessingJob)
  : list string * string * list string * list (option string * string) :=
  (processor_command (pj_processor j), pj_code j, map pi_destination (pj_inputs j),
   map (fun o => (po_output_name o, po_source o)) (pj_outputs j)).

(** The job with its arguments and output destinations replaced. *)
Definition with_arguments_and_destinations (j : ProcessingJob) (a : option (list pvar))
    (d : option string) : ProcessingJob :=
  {| pj_processor := pj_processor j; pj_code := pj_code j; pj_arguments := a;
     pj_inputs := pj_inputs j;
     pj_outputs := map (fun o => mkProcessingOutput (po_output_name o) (po_source o) d)
                       (pj_outputs j) |}.

(** The outputs of a job are the channels [chans], in order: container
    source [/opt/ml/processing/output/<c>] and S3 destination ending in
    [/<c>]. *)
Definition uses_channels (j : ProcessingJob) (chans : list string) : Prop :=
  map po_source (pj_outputs j) = map (fun c => "/opt/ml/processing/output/" ++ c) chans /\
  Forall2 (fun o c => exists base, po_destination o = Some (base ++ "/" ++ c))
          (pj_outputs j) chans.

(** The estimator with the spot-training arguments removed and the given tags. *)
Definition drop_spot_options (e : TensorFlow) (tags : list (list (string * string)))
  : TensorFlow :=
  {| tf_entry_point := tf_entry_point e; tf_source_dir := tf_source_dir e;
     tf_output_path := tf_output_path e; tf_instance_type := tf_instance_type e;
     tf_instance_count := tf_instance_count e; tf_distribution := tf_distribution e;
     tf_hyperparameters := tf_hyperparameters e;
     tf_metric_definitions := tf_metric_definitions e; tf_role := tf_role e;
     tf_use_spot_instances := None; tf_max_run := None; tf_max_wait := None;
     tf_checkpoint_s3_uri := None;
     tf_framework_version := tf_framework_version e; tf_py_version := tf_py_version e;
     tf_base_job_name := tf_base_job_name e; tf_script_mode := tf_script_mode e;
     tf_tags := tags |}.

Definition parameter_default (p : parameter) : pvar :=
  match p with
  | ParameterInteger _ d => PInt d
  | ParameterString _ d => PStr d
  end.

Fixpoint lookup_parameter (ps : list parameter) (n : string) : option parameter :=
  match ps with
  | [] => None
  | p :: ps' => if String.eqb (parameter_name p) n then Some p else lookup_parameter ps' n
  end.

(** The value of [v] in an execution started with [overrides] for the
    pipeline parameters [ps]; anything else is fixed in the definition. *)
Definition resolve (ps : list parameter) (overrides : string -> option pvar) (v : pvar) : pvar :=
  match v with
  | PParameter n =>
      match lookup_parameter ps n with
      | Some p => match overrides n with Some x => x | None => parameter_default p end
      | None => v
      end
  | _ => v
  end.

Definition training_channels (s : step) : list string :=
  match s with
  | TrainingStep _ _ ins _ => map fst ins
  | _ => []
  end.

(** ** Sample inputs *)

(** Evaluation reports of one execution: Spot reaches accuracy 0.82,
    OnDemand 0.65. *)
Definition sample_reports (step_nm file : string) : option json :=
  let report acc :=
    JObj [("multiclass_classification_metrics",
           JObj [("accuracy", JObj [("value", JNum acc); ("standard_deviation", JStr "NaN")])])] in
  if String.eqb step_nm "BirdClassificationSpotEval" && String.eqb file "EvaluationSpotReport"
  then Some (report (82 # 100))
  else if String.eqb step_nm "BirdClassificationOnDemandEval"
          && String.eqb file "EvaluationOnDemandReport"
  then Some (report (65 # 100))
  else None.

Definition sample_generated_output_uri (step_nm : string) : string :=
  "s3://sample-bucket/" ++ step_nm ++ "/output/evaluation".

(** An execution order of the pipeline's steps. *)
Definition sample_order : list string :=
  ["BirdClassificationPreProcess"; "BirdClassificationOnDemandTrain";
   "BirdClassificationSpotTrain"; "BirdClassificationSpotEval";
   "BirdClassificationOnDemandEval"; "BirdClassificationOnDemandCondition";
   "BirdClassificationSpotCondition"; "RegisterOnDemandModel"; "RegisterSpotModel"].

(** ** Further accessors of pipeline steps *)

(** Names of the outputs a processing step declares ([output_name=...]). *)
Definition step_output_names (s : step) : list (option string) :=
  match s with
  | ProcessingStep _ j _ _ => map po_output_name (pj_outputs j)
  | _ => []
  end.

Definition step_property_files (s : step) : list PropertyFile :=
  match s with
  | ProcessingStep _ _ _ pfs => pfs
  | _ => []
  end.

Definition step_training_inputs (s : step) : list (string * TrainingInput) :=
  match s with
  | TrainingStep _ _ ins _ => ins
  | _ => []
  end.

(** Outputs a processing step declares. *)
Definition step_outputs (s : step) : list ProcessingOutput :=
  match s with
  | ProcessingStep _ j _ _ => pj_outputs j
  | _ => []
  end.

Definition is_training_step (s : step) : bool :=
  match s with
  | TrainingStep _ _ _ _ => true
  | _ => false
  end.

(** [model_data] and the [MetricsSource] URI of a [RegisterModel]. *)
Definition register_model_data (s : step) : option pvar :=
  match s with
  | RegisterModel _ _ md _ _ _ _ _ _ => Some md
  | _ => None
  end.

Definition register_metrics_uri (s : step) : option string :=
  match s with
  | RegisterModel _ _ _ _ _ _ _ _ uri => Some uri
  | _ => None
  end.

(** Container paths of a processing job: input mount points, then output
    sources. *)
Definition container_paths (j : ProcessingJob) : list string :=
  map pi_destination (pj_inputs j) ++ map po_source (pj_outputs j).

(** ** Parameter substitution in a processing job *)

(** The job as an execution started with [overrides] runs it: every
    pipeline variable of the processor, the arguments and the input
    sources replaced by its value. *)
Definition resolve_processor (ps : list parameter) (overrides : string -> option pvar)
    (pr : processor) : processor :=
  match pr with
  | SKLearnProcessor b fv r ity icnt =>
      SKLearnProcessor b fv r (resolve ps overrides ity) (resolve ps overrides icnt)
  | ScriptProcessor b c img r icnt ity sess =>
      ScriptProcessor b c img r (resolve ps overrides icnt) (resolve ps overrides ity) sess
  end.

Definition resolve_job (ps : list parameter) (overrides : string -> option pvar)
    (j : ProcessingJob) : ProcessingJob :=
  {| pj_processor := resolve_processor ps overrides (pj_processor j);
     pj_code := pj_code j;
     pj_arguments := option_map (map (resolve ps overrides)) (pj_arguments j);
     pj_inputs := map (fun i => mkProcessingInput (resolve ps overrides (pi_source i))
                                                  (pi_destination i)) (pj_inputs j);
     pj_outputs := pj_outputs j |}.

(** ** S3 destinations the pipeline definition names *)

Definition option_to_list {A : Type} (o : option A) : list A :=
  match o with Some x => [x] | None => [] end.

(** Explicit output destinations of processing steps, and [output_path]
    and [checkpoint_s3_uri] of the training estimators. *)
Definition step_destinations (s : step) : list string :=
  match s with
  | ProcessingStep _ j _ _ => flat_map (fun o => option_to_list (po_destination o)) (pj_outputs j)
  | TrainingStep _ e _ _ => option_to_list (tf_output_path e) ++ option_to_list (tf_checkpoint_s3_uri e)
  | _ => []
  end.

Definition pipeline_destinations (p : Pipeline) : list string :=
  flat_map step_destinations (all_steps p).

Fixpoint string_has (c : ascii) (s : string) : bool :=
  match s with
  | EmptyString => false
  | String c' s' => Ascii.eqb c c' || string_has c s'
  end.

(** ** Cells of the deployment notebook, run in any order *)

Inductive deployment_cell : Type :=
| DeployCell (opt : deployment_option)
| InferenceCell.

Definition run_deployment_cell (bucket role : string)
    (endpoint_name_for : TensorFlowModel -> deploy_config -> string)
    (st : Deployment.state) (c : deployment_cell) : Deployment.state :=
  match c with
  | DeployCell opt => Deployment.deploy_cell bucket role endpoint_name_for opt st
  | InferenceCell => Deployment.inference_predictor_cell st
  end.

Definition run_deployment_cells (bucket role : string)
    (endpoint_name_for : TensorFlowModel -> deploy_config -> string)
    (cs : list deployment_cell) (st : Deployment.state) : Deployment.state :=
  fold_left (run_deployment_cell bucket role endpoint_name_for) cs st.

Definition deployed_options (cs : list deployment_cell) : list deployment_option :=
  flat_map (fun c => match c with DeployCell o => [o] | InferenceCell => [] end) cs.

(** The same execution's reports with a loss field added to each report. *)
Definition sample_reports_with_loss (step_nm file : string) : option json :=
  match sample_reports step_nm file with
  | Some (JObj fs) => Some (JObj (fs ++ [("loss", JNum (1 # 2))]))
  | r => r
  end.

Lemma string_app_assoc (a b c : string) : a ++ (b ++ c) = (a ++ b) ++ c.
Proof. induction a as [|x a IH]; cbn; [reflexivity | rewrite IH; reflexivity]. Qed.

Lemma workshop_s3_app (bucket key k : string) :
  workshop_s3 bucket key ++ k = workshop_s3 bucket (key ++ k).
Proof. unfold workshop_s3. cbn. rewrite <- !string_app_assoc. reflexivity. Qed.

(** Case split on the position [i] of [H : nth_error l i = Some _], for an
    explicit list [l]. *)
Ltac index_cases H i tac :=
  destruct i as [|i]; [ tac | cbn [nth_error] in H; first [ discriminate H | index_cases H i tac ] ].

(** A write at an earlier position that the read lies within. *)
Ltac find_write bound :=
  let rec go j n :=
    lazymatch n with
    | O => fail
    | S ?n' =>
        first [ exists j; eexists; split; [lia|]; split; [reflexivity|];
                first [ left; reflexivity
                      | right; left; eexists; rewrite workshop_s3_app; reflexivity
                      | right; right; eexists; rewrite workshop_s3_app; reflexivity ]
              | go (S j) n' ]
    end in
  go 0%nat bound.

Lemma beforeb_trans (order : list string) (a b c : string) :
  beforeb order a b = true -> beforeb order b c = true -> beforeb order a c = true.
Proof.
  unfold beforeb.
  destruct (index_of a order), (index_of b order), (index_of c order);
    try discriminate.
  rewrite !Nat.ltb_lt. lia.
Qed.

Lemma consistent_edge (order : list string) (edges : list (string * string)) (a b : string) :
  consistent_order order edges = true -> In (a, b) edges -> beforeb order a b = true.
Proof.
  unfold consistent_order. rewrite forallb_forall. intros H Hin. exact (H _ Hin).
Qed.

(** Closes [~ In x l] for an explicit list [l]. *)
Ltac not_in := let H := fresh in intro H; repeat destruct H as [H|H]; try discriminate H; contradiction.

(** Closes [NoDup l] for an explicit list [l] of distinct literals. *)
Ltac nodup := repeat (constructor; [cbn; not_in|]); constructor.

(** The top-level step of the pipeline with the name in the goal. *)
Ltac pick_step b r a g u :=
  lazymatch goal with
  | |- exists s', _ /\ step_name s' = "BirdClassificationPreProcess" /\ _ =>
      exists (step_process b r u)
  | |- exists s', _ /\ step_name s' = "BirdClassificationSpotTrain" /\ _ =>
      exists (step_train b r u "Spot")
  | |- exists s', _ /\ step_name s' = "BirdClassificationOnDemandTrain" /\ _ =>
      exists (step_train b r u "OnDemand")
  | |- exists s' _, _ /\ step_name s' = "BirdClassificationSpotEval" /\ _ =>
      exists (step_eval b r a g u "Spot")
  | |- exists s' _, _ /\ step_name s' = "BirdClassificationOnDemandEval" /\ _ =>
      exists (step_eval b r a g u "OnDemand")
  end.

Lemma string_app_inj_l (a b c : string) : a ++ b = a ++ c -> b = c.
Proof. induction a as [|x a IH]; cbn; [tauto | intros H; injection H as H; exact (IH H)]. Qed.

Lemma workshop_s3_inj (b k1 k2 : string) : workshop_s3 b k1 = workshop_s3 b k2 -> k1 = k2.
Proof.
  unfold workshop_s3. intros H.
  apply string_app_inj_l in H. apply string_app_inj_l in H.
  rewrite !string_app_assoc in H. apply string_app_inj_l in H. exact H.
Qed.

Lemma slash_free_prefix (u1 u2 k1 k2 : string) :
  string_has "/" u1 = false -> string_has "/" u2 = false ->
  u1 ++ "/" ++ k1 = u2 ++ "/" ++ k2 -> u1 = u2.
Proof.
  revert u2. induction u1 as [|x u1 IH]; intros [|y u2] H1 H2 H; cbn in *.
  - reflexivity.
  - injection H as <- _. discriminate H2.
  - injection H as -> _. discriminate H1.
  - apply orb_false_iff in H1 as [_ H1]. apply orb_false_iff in H2 as [_ H2].
    injection H as <- H. f_equal. exact (IH u2 H1 H2 H).
Qed.

Lemma pipeline_destinations_eq (b r a g u : string) (gen : string -> string) :
  pipeline_destinations (pipeline b r a g u gen) =
  map (fun k => workshop_s3 b ("outputs/pipelines/" ++ u ++ "/" ++ k))
      ["train"; "validation"; "test"; "manifest"; "models"; "outputcheckpoints"; "models"].
Proof.
  unfold workshop_s3. vm_compute. rewrite <- ?string_app_assoc. cbn. reflexivity.
Qed.

(** * Claims *)

Section Claims.

Variables bucket role account region run_uuid : string.
Variable generated_output_uri : string -> string.
Variable best_model_uri : string.
Variable endpoint_name_for : TensorFlowModel -> deploy_config -> string.

Let P : Pipeline := pipeline bucket role account region run_uuid generated_output_uri.
Let cond (t : string) : step :=
  step_cond bucket role account region run_uuid generated_output_uri t.
Let register (t : string) : step :=
  step_register bucket role account region run_uuid generated_output_uri t.

Lemma run_step_cond (reports : string -> string -> option json) (t : string) :
  run_step reports (cond t) =
  match reported_accuracy reports t with
  | Some (JNum a) =>
      if Qle_bool (7 # 10) a
      then ["BirdClassification" ++ t ++ "Condition"; "Register" ++ t ++ "Model"]
      else ["BirdClassification" ++ t ++ "Condition"]
  | _ => []
  end.
Proof.
  unfold cond, step_cond, cond_gte, reported_accuracy. cbn -[json_lookup].
  destruct (reports _ _) as [j|]; [|reflexivity].
  destruct (json_lookup ["multiclass_classification_metrics"; "accuracy"; "value"] j)
    as [[]|]; try reflexivity.
  rewrite andb_true_r. destruct (Qle_bool _ _); reflexivity.
Qed.

Lemma run_step_cond_names (reports : string -> string -> option json) (t x : string) :
  In x (run_step reports (cond t)) ->
  x = "BirdClassification" ++ t ++ "Condition" \/ x = "Register" ++ t ++ "Model".
Proof.
  rewrite run_step_cond.
  destruct (reported_accuracy reports t) as [[]|]; cbn; try tauto.
  destruct (Qle_bool _ _); cbn; intuition congruence.
Qed.

Lemma in_run_step_cond (reports : string -> string -> option json) (t : string) :
  In ("Register" ++ t ++ "Model") (run_step reports (cond t)) <->
  exists a, reported_accuracy reports t = Some (JNum a) /\ (7 # 10 <= a)%Q.
Proof.
  rewrite run_step_cond.
  destruct (reported_accuracy reports t) as [[]|];
    try (cbn; split; [tauto | intros [a [Ha _]]; discriminate Ha]).
  destruct (Qle_bool (7 # 10) q) eqn:E; split.
  - intros _. exists q. split; [reflexivity | apply Qle_bool_iff; exact E].
  - intros _. right. left. reflexivity.
  - intros [H|[]]. discriminate H.
  - intros [a [Ha Hle]]. injection Ha as <-.
    apply Qle_bool_iff in Hle. congruence.
Qed.

Lemma run_pipeline_shape (reports : string -> string -> option json) :
  run_pipeline reports P =
  (["BirdClassificationPreProcess"; "BirdClassificationSpotTrain";
    "BirdClassificationOnDemandTrain"; "BirdClassificationSpotEval";
    "BirdClassificationOnDemandEval"]
   ++ run_step reports (cond "Spot") ++ run_step reports (cond "OnDemand"))%list.
Proof.
  unfold run_pipeline. cbn [P pipeline pl_steps steps training_options map app flat_map].
  rewrite app_nil_r. reflexivity.
Qed.

(** C1: for each training type [t], the registration step of [t] occurs
    once in the pipeline, only in the if-branch of the condition step of
    [t]; that step has the single condition
    [JsonGet(eval step of t, report of t, "multiclass_classification_metrics.accuracy.value") >= 0.7]
    and an empty else-branch; so the model of [t] is registered in an
    execution exactly when the accuracy in [t]'s evaluation report is at
    least 0.7. *)
Theorem registration_gated_by_accuracy
    (reports : string -> string -> option json) (t : string) :
  In t training_options ->
  step_cond bucket role account region run_uuid generated_output_uri t =
    ConditionStep ("BirdClassification" ++ t ++ "Condition")
      [ConditionGreaterThanOrEqualTo
         (PJsonGet ("BirdClassification" ++ t ++ "Eval") ("Evaluation" ++ t ++ "Report")
                   "multiclass_classification_metrics.accuracy.value")
         (PFloat (7 # 10))]
      [step_register bucket role account region run_uuid generated_output_uri t] [] /\
  In (step_cond bucket role account region run_uuid generated_output_uri t)
     (pl_steps (pipeline bucket role account region run_uuid generated_output_uri)) /\
  step_name (step_register bucket role account region run_uuid generated_output_uri t)
    = "Register" ++ t ++ "Model" /\
  count_occ string_dec
    (map step_name (all_steps (pipeline bucket role account region run_uuid
                                        generated_output_uri)))
    ("Register" ++ t ++ "Model") = 1%nat /\
  ~ In ("Register" ++ t ++ "Model")
       (map step_name (pl_steps (pipeline bucket role account region run_uuid
                                          generated_output_uri))) /\
  (In ("Register" ++ t ++ "Model")
      (run_pipeline reports (pipeline bucket role account region run_uuid
                                      generated_output_uri)) <->
   exists a, reported_accuracy reports t = Some (JNum a) /\ (7 # 10 <= a)%Q).
Proof.
  intros Ht.
  destruct Ht as [<-|[<-|[]]];
    (split; [reflexivity|]);
    (split; [unfold pipeline, steps, training_options; cbn [pl_steps map app];
             repeat (first [left; reflexivity | right]) |]);
    (split; [reflexivity|]); (split; [reflexivity|]);
    (split; [cbn; intuition discriminate|]);
    fold P; rewrite run_pipeline_shape, <- (in_run_step_cond reports), !in_app_iff;
    split; try tauto; intros [H|[H|H]]; try tauto;
    try (cbn in H; intuition discriminate);
    apply run_step_cond_names in H; destruct H; discriminate.
Qed.

(** C2: both training steps take their [train], [test] and [validation]
    channels from output properties of the preprocessing step; the
    evaluation step of [t] takes test data and manifest from the
    preprocessing step and the model from [t]'s training step
    ([S3ModelArtifacts]); the condition step of [t] reads only the
    evaluation step of [t].  Hence every execution order respecting the
    inferred dependencies runs preprocessing before training, training of
    [t] before its evaluation, and that evaluation before the condition
    step and the registration of [t]. *)
Theorem dependency_chain (t : string) (order : list string) :
  In t training_options ->
  consistent_order order
    (pipeline_edges (pipeline bucket role account region run_uuid generated_output_uri))
    = true ->
  training_channels (step_train bucket role run_uuid t) = ["train"; "test"; "validation"] /\
  step_input_sources (step_train bucket role run_uuid t) =
    [PProperty "BirdClassificationPreProcess"
       ["ProcessingOutputConfig"; "Outputs"; "train_data"; "S3Output"; "S3Uri"];
     PProperty "BirdClassificationPreProcess"
       ["ProcessingOutputConfig"; "Outputs"; "test_data"; "S3Output"; "S3Uri"];
     PProperty "BirdClassificationPreProcess"
       ["ProcessingOutputConfig"; "Outputs"; "val_data"; "S3Output"; "S3Uri"]] /\
  step_input_sources (step_eval bucket role account region run_uuid t) =
    [PProperty "BirdClassificationPreProcess"
       ["ProcessingOutputConfig"; "Outputs"; "test_data"; "S3Output"; "S3Uri"];
     PProperty "BirdClassificationPreProcess"
       ["ProcessingOutputConfig"; "Outputs"; "manifest"; "S3Output"; "S3Uri"];
     PProperty ("BirdClassification" ++ t ++ "Train") ["ModelArtifacts"; "S3ModelArtifacts"]] /\
  step_refs (step_cond bucket role account region run_uuid generated_output_uri t) =
    ["BirdClassification" ++ t ++ "Eval"] /\
  beforeb order "BirdClassificationPreProcess" ("BirdClassification" ++ t ++ "Train") = true /\
  beforeb order ("BirdClassification" ++ t ++ "Train") ("BirdClassification" ++ t ++ "Eval")
    = true /\
  beforeb order ("BirdClassification" ++ t ++ "Eval") ("BirdClassification" ++ t ++ "Condition")
    = true /\
  beforeb order ("BirdClassification" ++ t ++ "Eval") ("Register" ++ t ++ "Model") = true.
Proof.
  intros Ht Hc.
  assert (E : forall a b, In (a, b) (pipeline_edges P) -> beforeb order a b = true)
    by (intros a b; apply consistent_edge; exact Hc).
  destruct Ht as [<-|[<-|[]]];
    (split; [reflexivity|]); (split; [reflexivity|]); (split; [reflexivity|]);
    (split; [reflexivity|]);
    (split; [apply E; cbn; repeat (first [left; reflexivity | right])|]);
    (split; [apply E; cbn; repeat (first [left; reflexivity | right])|]);
    (split; [apply E; cbn; repeat (first [left; reflexivity | right])|]);
    (eapply beforeb_trans;
     [ apply E; cbn; repeat (first [left; reflexivity | right])
     | apply E; cbn; repeat (first [left; reflexivity | right]) ]).
Qed.

(** C3 (amended): each preprocessing job declares exactly four outputs; the
    standalone run of the preprocessing notebook uses the channels
    train/valid/test/manifest, the pipeline's preprocessing step the
    channels train/validation/test/manifest (container source
    [/opt/ml/processing/output/<c>] and S3 destination ending in [/<c>]). *)
Theorem preprocessing_output_channels :
  uses_channels (Preprocessing.preprocessing_job bucket role)
    ["train"; "valid"; "test"; "manifest"] /\
  exists j, step_job (step_process bucket role run_uuid) = Some j /\
            uses_channels j ["train"; "validation"; "test"; "manifest"].
Proof.
  split.
  - split; [reflexivity|].
    repeat constructor; eexists; reflexivity.
  - eexists. split; [reflexivity|].
    split; [reflexivity|].
    repeat constructor; eexists; reflexivity.
Qed.

(** C5: the pipeline builds exactly two training steps, for Spot and
    OnDemand.  The Spot estimator (tag TrainingType=Spot) sets
    [use_spot_instances=True], [max_run=36000], [max_wait=43200] (at least
    [max_run]) and a checkpoint URI; the OnDemand estimator (tag
    TrainingType=OnDemand) sets none of them; without these four arguments
    and the tags the two estimators are equal. *)
Theorem spot_and_ondemand_estimators :
  let spot := training_estimator bucket role run_uuid "Spot" in
  let ondemand := training_estimator bucket role run_uuid "OnDemand" in
  map fst (training_steps bucket role run_uuid) = ["Spot"; "OnDemand"] /\
  map (fun ts => step_estimator (snd ts)) (training_steps bucket role run_uuid)
    = [Some spot; Some ondemand] /\
  tf_tags spot = [[("Key", "TrainingType"); ("Value", "Spot")]] /\
  tf_tags ondemand = [[("Key", "TrainingType"); ("Value", "OnDemand")]] /\
  tf_use_spot_instances spot = Some true /\
  tf_max_run spot = Some 36000%Z /\
  tf_max_wait spot = Some 43200%Z /\
  (36000 <= 43200)%Z /\
  tf_checkpoint_s3_uri spot = Some (output_s3_uri bucket run_uuid ++ "/outputcheckpoints") /\
  tf_use_spot_instances ondemand = None /\
  tf_max_run ondemand = None /\
  tf_max_wait ondemand = None /\
  tf_checkpoint_s3_uri ondemand = None /\
  drop_spot_options spot (tf_tags ondemand) = ondemand.
Proof.
  cbv zeta.
  repeat split; try reflexivity; lia.
Qed.

(** C6 (amended): the standalone evaluation job and the pipeline's
    evaluation step of any training type have the same job shape (command
    python3, code evaluation.py, inputs mounted at
    /opt/ml/processing/input/test, /opt/ml/processing/input/manifest and
    /opt/ml/processing/model, one output [evaluation] from
    /opt/ml/processing/evaluation) and the same image and instance type.
    The standalone run passes [--model-file model.tar.gz] and an S3
    destination, the step neither; they also differ in base job name,
    instance count (1 against the ProcessingInstanceCount parameter),
    session, and input sources (fixed S3 URIs against step properties). *)
Theorem evaluation_job_shapes (t : string) :
  let sj := Evaluation.evaluation_job bucket role account region in
  let pj := eval_job bucket role account region run_uuid t in
  step_job (step_eval bucket role account region run_uuid t) = Some pj /\
  job_shape sj = job_shape pj /\
  job_shape pj =
    (["python3"], "evaluation.py",
     ["/opt/ml/processing/input/test"; "/opt/ml/processing/input/manifest";
      "/opt/ml/processing/model"],
     [(Some "evaluation", "/opt/ml/processing/evaluation")]) /\
  pj_arguments sj = Some [PStr "--model-file"; PStr "model.tar.gz"] /\
  pj_arguments pj = None /\
  map po_destination (pj_outputs sj) = [Some (Evaluation.s3_evaluation_output bucket)] /\
  map po_destination (pj_outputs pj) = [None] /\
  pj_processor sj = ScriptProcessor prefix ["python3"] (image_uri account region) role
                      (PInt 1) (PStr "ml.m5.xlarge") DefaultSession /\
  pj_processor pj = ScriptProcessor (prefix ++ "-evaluation") ["python3"]
                      (image_uri account region) role
                      (PParameter "ProcessingInstanceCount") (PStr "ml.m5.xlarge")
                      PipelineSession /\
  map pi_source (pj_inputs sj) =
    [PStr (Evaluation.s3_images bucket); PStr (Evaluation.s3_manifest bucket);
     PStr (Evaluation.s3_model bucket)] /\
  map pi_source (pj_inputs pj) =
    [PProperty "BirdClassificationPreProcess"
       ["ProcessingOutputConfig"; "Outputs"; "test_data"; "S3Output"; "S3Uri"];
     PProperty "BirdClassificationPreProcess"
       ["ProcessingOutputConfig"; "Outputs"; "manifest"; "S3Output"; "S3Uri"];
     PProperty ("BirdClassification" ++ t ++ "Train") ["ModelArtifacts"; "S3ModelArtifacts"]].
Proof.
  cbv zeta. repeat split.
Qed.

(** C7: every step of the pipeline other than the condition steps (the
    preprocessing step, both training steps, both evaluation steps) carries
    the cache configuration [CacheConfig(enable_caching=True,
    expire_after="30d")]; the condition steps carry none. *)
Theorem cache_configuration :
  map step_name (filter (fun s => negb (is_condition_step s))
                  (pl_steps (pipeline bucket role account region run_uuid
                                      generated_output_uri))) =
    ["BirdClassificationPreProcess"; "BirdClassificationSpotTrain";
     "BirdClassificationOnDemandTrain"; "BirdClassificationSpotEval";
     "BirdClassificationOnDemandEval"] /\
  (forall s, In s (pl_steps (pipeline bucket role account region run_uuid
                                     generated_output_uri)) ->
     step_cache_config s =
       if is_condition_step s then None else Some (mkCacheConfig true "30d")).
Proof.
  split; [reflexivity|].
  intros s Hs.
  unfold pipeline, steps, training_options in Hs. cbn [pl_steps map app In] in Hs.
  repeat destruct Hs as [<-|Hs]; try reflexivity; contradiction.
Qed.

(** C9: the pipeline declares exactly the four parameters
    ProcessingInstanceCount (integer, 1), InputDataUrl (string,
    s3://{bucket}/{prefix}/full/data), AnnotationFileName (string,
    "classes.txt") and ClassSelection (string,
    "13, 17, 35, 36, 47, 68, 73, 87"); every parameter reference in a step
    names one of them; and whatever values an execution supplies, the
    training instance type ml.c5.4xlarge, training instance count 1 and
    processing instance type ml.m5.xlarge stay as defined. *)
Theorem pipeline_parameters :
  pl_parameters (pipeline bucket role account region run_uuid generated_output_uri) =
    [ParameterInteger "ProcessingInstanceCount" 1;
     ParameterString "InputDataUrl" ("s3://" ++ bucket ++ "/" ++ prefix ++ "/full/data");
     ParameterString "AnnotationFileName" "classes.txt";
     ParameterString "ClassSelection" "13, 17, 35, 36, 47, 68, 73, 87"] /\
  (forall s n,
     In s (all_steps (pipeline bucket role account region run_uuid generated_output_uri)) ->
     In (PParameter n) (step_args s) ->
     In n ["ProcessingInstanceCount"; "InputDataUrl"; "AnnotationFileName";
           "ClassSelection"]) /\
  (forall overrides t, In t training_options ->
     let ps := pl_parameters (pipeline bucket role account region run_uuid
                                        generated_output_uri) in
     resolve ps overrides (tf_instance_type (training_estimator bucket role run_uuid t))
       = PStr "ml.c5.4xlarge" /\
     resolve ps overrides (tf_instance_count (training_estimator bucket role run_uuid t))
       = PInt 1 /\
     resolve ps overrides (processor_instance_type (sklearn_processor role))
       = PStr "ml.m5.xlarge" /\
     resolve ps overrides (processor_instance_type (eval_processor role account region))
       = PStr "ml.m5.xlarge").
Proof.
  split; [reflexivity|]. split.
  - intros s n Hs Hn.
    unfold pipeline, all_steps, steps, training_options in Hs.
    cbn [pl_steps map app flat_map] in Hs.
    repeat (apply in_app_or in Hs; destruct Hs as [Hs|Hs]);
      cbn in Hs; repeat destruct Hs as [<-|Hs]; try contradiction;
      cbn in Hn; repeat destruct Hn as [Hn|Hn]; try contradiction;
      try discriminate Hn; injection Hn as <-; cbn; tauto.
  - intros overrides t Ht. destruct Ht as [<-|[<-|[]]]; repeat split.
Qed.

(** C10: the tuning job maximizes [val_acc] over exactly [dropout] in the
    continuous range [0.5, 0.8] and [batch-size] in {8, 16, 32, 64, 128,
    256}, with at most 2 jobs, 2 in parallel; the notebook then copies the
    best job's model artifact to {prefix}/outputs/model/model.tar.gz of the
    bucket. *)
Theorem tuning_job_configuration :
  let tuner := Training.tuner role in
  ht_objective_metric_name tuner = "val_acc" /\
  ht_objective_type tuner = "Maximize" /\
  ht_hyperparameter_ranges tuner =
    [("dropout", ContinuousParameter (5 # 10) (8 # 10));
     ("batch-size", CategoricalParameter [8; 16; 32; 64; 128; 256]%Z)] /\
  ht_max_jobs tuner = 2%Z /\
  ht_max_parallel_jobs tuner = 2%Z /\
  ht_estimator tuner = Training.estimator role /\
  Training.copy_best_model bucket best_model_uri =
    (best_model_uri, "s3://" ++ bucket ++ "/" ++ prefix ++ "/outputs/model/model.tar.gz").
Proof.
  cbv zeta. repeat split.
  unfold Training.copy_best_model, Training.model_output_path.
  rewrite <- !string_app_assoc. reflexivity.
Qed.

(** C8 (amended): the deployment notebook has two alternative deployments
    of the same TensorFlowModel (model_data
    s3://{bucket}/{prefix}/outputs/model/model.tar.gz, framework 2.4.1): a
    serverless endpoint (4096 MB, concurrency 5) or a real-time endpoint
    (1 instance of ml.c5.4xlarge).  Each stores the returned predictor and
    its endpoint name in [tf_endpoint_name]; the inference section then
    sets [tf_endpoint_name] to the placeholder
    "<SAGEMAKER DEPLOYED ENDPOINT NAME>", to be replaced by hand, and builds
    the inference predictor from it. *)
Theorem deployment_alternatives (opt : deployment_option) :
  let m := mkTensorFlowModel
             ("s3://" ++ bucket ++ "/" ++ prefix ++ "/outputs/model/model.tar.gz") role "2.4.1" in
  let c := match opt with
           | Option1Serverless => ServerlessDeploy (mkServerlessInferenceConfig 4096 5)
           | Option2RealTime => RealTimeDeploy 1 "ml.c5.4xlarge"
           end in
  let n := endpoint_name_for m c in
  Deployment.deploy_cell bucket role endpoint_name_for opt Deployment.init =
    Deployment.mkState (Some m) (Some (mkPredictor n)) (Some n) [(m, c, n)] /\
  Deployment.run bucket role endpoint_name_for opt =
    Deployment.mkState (Some m)
      (Some (mkPredictor "<SAGEMAKER DEPLOYED ENDPOINT NAME>"))
      (Some "<SAGEMAKER DEPLOYED ENDPOINT NAME>") [(m, c, n)].
Proof.
  cbv zeta. destruct opt; split; reflexivity.
Qed.

Lemma notebook_trace :
  concat (notebook_s3_events bucket role account region best_model_uri) =
  [S3Read Preprocessing.public_dataset;
   S3Write (workshop_s3 bucket "full/data"); S3Read (workshop_s3 bucket "full/data");
   S3Write (workshop_s3 bucket "outputs/train"); S3Write (workshop_s3 bucket "outputs/valid");
   S3Write (workshop_s3 bucket "outputs/test"); S3Write (workshop_s3 bucket "outputs/manifest");
   S3Read (workshop_s3 bucket "outputs");
   S3Read (workshop_s3 bucket "outputs/train"); S3Read (workshop_s3 bucket "outputs/valid");
   S3Write best_model_uri; S3Read best_model_uri;
   S3Write (workshop_s3 bucket "outputs/model/model.tar.gz");
   S3Read (workshop_s3 bucket "outputs/test/"); S3Read (workshop_s3 bucket "outputs/manifest");
   S3Read (workshop_s3 bucket "outputs/model/");
   S3Write (workshop_s3 bucket "outputs/evaluation");
   S3Read (workshop_s3 bucket "outputs/evaluation/evaluation.json");
   S3Read (workshop_s3 bucket "outputs/evaluation/confusion_matrix.png");
   S3Read (workshop_s3 bucket "outputs/model/model.tar.gz");
   S3Read (workshop_s3 bucket "full/data/classes.txt");
   S3Read (workshop_s3 bucket "outputs/test")].
Proof.
  unfold workshop_s3. cbn. rewrite <- !string_app_assoc. reflexivity.
Qed.

(** C4 (amended): running the standalone notebooks in order, every S3
    location read lies within a location written before it: equal to it,
    a key prefix of it (evaluation reads .../outputs/model/, which holds
    the model.tar.gz the training notebook copied), or inside it
    (evaluation reads .../outputs/test/ of the .../outputs/test the
    preprocessing job wrote).  Preprocessing writes .../outputs/train,
    /valid, /test and /manifest; training reads /train and /valid and
    copies the best artifact to /model/model.tar.gz; evaluation reads
    /test/, /manifest and /model/ and writes /evaluation; deployment reads
    /model/model.tar.gz, all under s3://{bucket}/cv-sagemaker-immersionday/outputs.
    The deployment notebook also reads
    s3://{bucket}/cv-sagemaker-immersionday/full/data/classes.txt, outside
    /outputs, from the raw data the preprocessing notebook uploaded to
    .../full/data.  The one read that lies within no earlier write is the
    first event of all: the preprocessing notebook's download of the
    public dataset https://s3.amazonaws.com/fast-ai-imageclas/CUB_200_2011.tgz. *)
Theorem s3_locations_chain :
  let evs := concat (notebook_s3_events bucket role account region best_model_uri) in
  s3_writes (job_s3_events (Preprocessing.preprocessing_job bucket role)) =
    [workshop_s3 bucket "outputs/train"; workshop_s3 bucket "outputs/valid";
     workshop_s3 bucket "outputs/test"; workshop_s3 bucket "outputs/manifest"] /\
  s3_reads (input_s3_data (Training.inputs bucket)) =
    [workshop_s3 bucket "outputs/train"; workshop_s3 bucket "outputs/valid"] /\
  snd (Training.copy_best_model bucket best_model_uri) =
    workshop_s3 bucket "outputs/model/model.tar.gz" /\
  s3_reads (job_s3_events (Evaluation.evaluation_job bucket role account region)) =
    [workshop_s3 bucket "outputs/test/"; workshop_s3 bucket "outputs/manifest";
     workshop_s3 bucket "outputs/model/"] /\
  s3_writes (job_s3_events (Evaluation.evaluation_job bucket role account region)) =
    [workshop_s3 bucket "outputs/evaluation"] /\
  s3_reads (Deployment.s3_events bucket) =
    [workshop_s3 bucket "outputs/model/model.tar.gz";
     workshop_s3 bucket "full/data/classes.txt"; workshop_s3 bucket "outputs/test"] /\
  In (workshop_s3 bucket "full/data") (s3_writes (Preprocessing.s3_events bucket role)) /\
  nth_error evs 0 = Some (S3Read Preprocessing.public_dataset) /\
  (forall i r, nth_error evs i = Some (S3Read r) ->
     (i = 0%nat /\ r = Preprocessing.public_dataset) \/
     exists j w, (j < i)%nat /\ nth_error evs j = Some (S3Write w) /\ s3_within r w).
Proof.
  cbv zeta.
  split; [unfold workshop_s3; cbn; rewrite <- ?string_app_assoc; reflexivity|].
  split; [unfold workshop_s3; cbn; rewrite <- ?string_app_assoc; reflexivity|].
  split; [unfold workshop_s3; cbn; rewrite <- ?string_app_assoc; reflexivity|].
  split; [unfold workshop_s3; cbn; rewrite <- ?string_app_assoc; reflexivity|].
  split; [unfold workshop_s3; cbn; rewrite <- ?string_app_assoc; reflexivity|].
  split; [unfold workshop_s3; cbn; rewrite <- ?string_app_assoc; reflexivity|].
  split; [left; reflexivity|].
  rewrite notebook_trace. split; [reflexivity|]. intros i r Hi.
  index_cases Hi i ltac:(cbn [nth_error] in Hi;
    first [ discriminate Hi
          | injection Hi as <-;
            first [ left; split; reflexivity | right; find_write 22%nat ] ]).
Qed.

End Claims.

(** * Further properties of the notebooks *)

Section Extras.
Variables bucket role account region run_uuid : string.
Variable generated_output_uri : string -> string.
Variable best_model_uri : string.
Variable endpoint_name_for : TensorFlowModel -> deploy_config -> string.

Let P : Pipeline := pipeline bucket role account region run_uuid generated_output_uri.

Lemma pl_steps_eq :
  pl_steps P =
  [step_process bucket role run_uuid;
   step_train bucket role run_uuid "Spot"; step_train bucket role run_uuid "OnDemand";
   step_eval bucket role account region run_uuid "Spot";
   step_eval bucket role account region run_uuid "OnDemand";
   step_cond bucket role account region run_uuid generated_output_uri "Spot";
   step_cond bucket role account region run_uuid generated_output_uri "OnDemand"].
Proof. reflexivity. Qed.

Lemma all_steps_eq :
  all_steps P =
  [step_process bucket role run_uuid;
   step_train bucket role run_uuid "Spot"; step_train bucket role run_uuid "OnDemand";
   step_eval bucket role account region run_uuid "Spot";
   step_eval bucket role account region run_uuid "OnDemand";
   step_cond bucket role account region run_uuid generated_output_uri "Spot";
   step_register bucket role account region run_uuid generated_output_uri "Spot";
   step_cond bucket role account region run_uuid generated_output_uri "OnDemand";
   step_register bucket role account region run_uuid generated_output_uri "OnDemand"].
Proof. reflexivity. Qed.

(** Every step of the pipeline, including the registration steps nested in
    the condition steps, has its own name. *)
Theorem step_names_unique :
  NoDup (map step_name (all_steps (pipeline bucket role account region run_uuid
                                            generated_output_uri))).
Proof.
  fold P. rewrite all_steps_eq. vm_compute. nodup.
Qed.

(** The order in which the notebook builds the steps (preprocessing, the
    training steps, the evaluation steps, each condition step followed by
    its registration step) respects every inferred dependency; so the
    dependency graph has no cycle. *)
Theorem declaration_order_consistent :
  let P := pipeline bucket role account region run_uuid generated_output_uri in
  consistent_order (map step_name (all_steps P)) (pipeline_edges P) = true.
Proof. vm_compute. reflexivity. Qed.

(** Every step property a step of the pipeline reads refers to a top-level
    step of the pipeline that provides it: an [Outputs[o]] reference names a
    step declaring an output named [o], a [ModelArtifacts] reference names
    a training step, and a [JsonGet] names a step that declares the
    property file, whose [output_name] is one of that step's outputs. *)
Theorem property_references_resolve :
  (forall s n path, In s (all_steps P) -> In (PProperty n path) (step_args s) ->
     exists s', In s' (pl_steps P) /\ step_name s' = n /\
       ((exists o, path = ["ProcessingOutputConfig"; "Outputs"; o; "S3Output"; "S3Uri"] /\
                   In (Some o) (step_output_names s')) \/
        (path = ["ModelArtifacts"; "S3ModelArtifacts"] /\ is_training_step s' = true))) /\
  (forall s n f jp, In s (all_steps P) -> In (PJsonGet n f jp) (step_args s) ->
     exists s' pf, In s' (pl_steps P) /\ step_name s' = n /\ In pf (step_property_files s') /\
       pf_name pf = f /\ In (Some (pf_output_name pf)) (step_output_names s')).
Proof.
  split.
  - intros s n path Hs Hn. rewrite all_steps_eq in Hs. rewrite pl_steps_eq.
    repeat destruct Hs as [<-|Hs]; try contradiction;
      vm_compute in Hn; repeat destruct Hn as [Hn|Hn]; try contradiction;
      try discriminate Hn; injection Hn as <- <-;
      pick_step bucket role account region run_uuid;
      (split; [repeat (first [left; reflexivity | right])|]); (split; [reflexivity|]);
      first [ left; eexists; split; [reflexivity | vm_compute; repeat (first [left; reflexivity | right])]
            | right; split; reflexivity ].
  - intros s n f jp Hs Hn. rewrite all_steps_eq in Hs. rewrite pl_steps_eq.
    repeat destruct Hs as [<-|Hs]; try contradiction;
      vm_compute in Hn; repeat destruct Hn as [Hn|Hn]; try contradiction;
      try discriminate Hn; injection Hn as <- <- <-;
      pick_step bucket role account region run_uuid;
      lazymatch goal with
      | |- exists pf, In (step_eval _ _ _ _ _ ?t) _ /\ _ => exists (evaluation_report t)
      end;
      (split; [repeat (first [left; reflexivity | right])|]); (split; [reflexivity|]);
      (split; [left; reflexivity|]);
      (split; [reflexivity | left; reflexivity]).
Qed.

(** For any training type [t], the registration step registers the model
    artifact of [t]'s training step, which is the model input of [t]'s
    evaluation step, with [t]'s estimator; its metrics source is the file
    [evaluation.json] of the evaluation step's only output, the output and
    path of the property file the condition step reads. *)
Theorem registered_model_is_evaluated (t : string) :
  register_model_data (step_register bucket role account region run_uuid generated_output_uri t)
    = Some (models bucket role run_uuid t) /\
  models bucket role run_uuid t = model_artifacts (step_train bucket role run_uuid t) /\
  In (mkProcessingInput (models bucket role run_uuid t) "/opt/ml/processing/model")
     (pj_inputs (eval_job bucket role account region run_uuid t)) /\
  step_estimator (step_register bucket role account region run_uuid generated_output_uri t)
    = step_estimator (step_train bucket role run_uuid t) /\
  step_property_files (step_eval bucket role account region run_uuid t) = [evaluation_report t] /\
  step_output_names (step_eval bucket role account region run_uuid t)
    = [Some (pf_output_name (evaluation_report t))] /\
  register_metrics_uri (step_register bucket role account region run_uuid generated_output_uri t)
    = Some (generated_output_uri (step_name (step_eval bucket role account region run_uuid t))
            ++ "/" ++ pf_path (evaluation_report t)).
Proof.
  repeat split. right; right; left; reflexivity.
Qed.

(** Each data channel [c] of a training step reads, with distribution
    [FullyReplicated], the preprocessing output whose container source is
    [/opt/ml/processing/output/<c>]; each evaluation input mounted at
    [/opt/ml/processing/input/<c>] from a preprocessing output reads the
    output whose container source is [/opt/ml/processing/output/<c>]. *)
Theorem channels_match_output_folders (t : string) :
  let sp := step_process bucket role run_uuid in
  (forall c ti, In (c, ti) (step_training_inputs (step_train bucket role run_uuid t)) ->
     ti_distribution ti = "FullyReplicated" /\
     exists o d, ti_s3_data ti = processing_output_uri sp o /\
       In (mkProcessingOutput (Some o) ("/opt/ml/processing/output/" ++ c) d) (step_outputs sp)) /\
  (forall i o, In i (pj_inputs (eval_job bucket role account region run_uuid t)) ->
     pi_source i = processing_output_uri sp o ->
     exists c d, pi_destination i = "/opt/ml/processing/input/" ++ c /\
       In (mkProcessingOutput (Some o) ("/opt/ml/processing/output/" ++ c) d) (step_outputs sp)).
Proof.
  cbv zeta. split.
  - intros c ti H. cbn [step_training_inputs step_train inputs In] in H.
    repeat destruct H as [H|H]; try contradiction; injection H as <- <-;
      (split; [reflexivity|]); do 2 eexists; (split; [reflexivity|]);
      cbn [step_outputs step_process]; repeat (first [left; reflexivity | right]).
  - intros i o H Hs. cbn [eval_job pj_inputs In] in H.
    repeat destruct H as [H|H]; try contradiction; subst i; cbn in Hs;
      try discriminate Hs; injection Hs as <-; do 2 eexists;
      (split; [reflexivity|]);
      cbn [step_outputs step_process]; repeat (first [left; reflexivity | right]).
Qed.

(** Run with the default parameter values, the pipeline's preprocessing
    step has the same processor, arguments and inputs as the standalone run
    of the preprocessing notebook; only the script name differs
    ([preprocess.py] against [preprocessing.py]), besides the output
    channels. *)
Theorem default_preprocessing_matches_standalone :
  exists j, step_job (step_process bucket role run_uuid) = Some j /\
    let r := resolve_job (pl_parameters P) (fun _ => None) j in
    let sj := Preprocessing.preprocessing_job bucket role in
    pj_processor r = pj_processor sj /\ pj_arguments r = pj_arguments sj /\
    pj_inputs r = pj_inputs sj /\
    pj_code r = "preprocess.py" /\ pj_code sj = "preprocessing.py".
Proof.
  eexists. split; [reflexivity|]. cbv zeta. repeat split.
Qed.

(** In any execution every processing step of the pipeline (preprocessing
    and both evaluations) runs with the same instance count: the
    ProcessingInstanceCount value supplied, else 1. *)
Theorem processing_instance_count_shared (overrides : string -> option pvar) :
  forall s j, In s (pl_steps P) -> step_job s = Some j ->
    resolve (pl_parameters P) overrides (processor_instance_count (pj_processor j)) =
      match overrides "ProcessingInstanceCount" with Some x => x | None => PInt 1 end.
Proof.
  intros s j Hs Hj. rewrite pl_steps_eq in Hs.
  repeat destruct Hs as [<-|Hs]; try contradiction; try discriminate Hj;
    injection Hj as <-; reflexivity.
Qed.

(** No cell of the deployment notebook removes an endpoint: running any
    sequence of its deploy and inference cells keeps the endpoints created
    before and adds exactly one endpoint per deploy cell, in order, for
    the model at .../outputs/model/model.tar.gz. *)
Theorem deployment_cells_accumulate_endpoints (cs : list deployment_cell)
    (st : Deployment.state) :
  Deployment.endpoints (run_deployment_cells bucket role endpoint_name_for cs st) =
  (Deployment.endpoints st ++
   map (fun opt =>
          let m := mkTensorFlowModel
                     ("s3://" ++ bucket ++ "/" ++ prefix ++ "/outputs/model/model.tar.gz")
                     role "2.4.1" in
          let c := match opt with
                   | Option1Serverless => ServerlessDeploy (mkServerlessInferenceConfig 4096 5)
                   | Option2RealTime => RealTimeDeploy 1 "ml.c5.4xlarge"
                   end in
          (m, c, endpoint_name_for m c))
       (deployed_options cs))%list.
Proof.
  unfold run_deployment_cells.
  revert st. induction cs as [|c cs IH]; intros st; cbn.
  - rewrite app_nil_r. reflexivity.
  - rewrite IH. destruct c as [opt|]; cbn.
    + rewrite <- app_assoc. destruct opt; reflexivity.
    + reflexivity.
Qed.

(** The tuner's objective metric is one of its metric definitions, which
    are the estimator's; the tuned hyperparameters are disjoint from the
    estimator's fixed hyperparameters; every range is non-empty; and the
    parallel job limit does not exceed the job limit. *)
Theorem tuner_well_formed :
  let tu := Training.tuner role in
  In (ht_objective_metric_name tu) (map fst (ht_metric_definitions tu)) /\
  ht_metric_definitions tu = tf_metric_definitions (ht_estimator tu) /\
  (forall h, In h (map fst (ht_hyperparameter_ranges tu)) ->
     ~ In h (map fst (tf_hyperparameters (ht_estimator tu)))) /\
  (forall h r, In (h, r) (ht_hyperparameter_ranges tu) ->
     match r with
     | IntegerParameter a b => (a <= b)%Z
     | ContinuousParameter a b => (a <= b)%Q
     | CategoricalParameter vs => vs <> []
     end) /\
  (ht_max_parallel_jobs tu <= ht_max_jobs tu)%Z.
Proof.
  cbv zeta. split; [cbn; right; right; right; left; reflexivity|].
  split; [reflexivity|]. split.
  - intros h Hh. cbn in Hh. destruct Hh as [<-|[<-|[]]]; cbn; not_in.
  - split; [|cbn; lia].
    intros h r Hr. cbn in Hr. destruct Hr as [Hr|[Hr|[]]]; injection Hr as <- <-.
    + unfold Qle; cbn; lia.
    + discriminate.
Qed.

(** In every processing job of the repository (the two standalone runs and
    each processing step of the pipeline) the container paths of inputs and
    outputs are pairwise distinct, and no training step has two channels of
    the same name. *)
Theorem container_paths_distinct :
  NoDup (container_paths (Preprocessing.preprocessing_job bucket role)) /\
  NoDup (container_paths (Evaluation.evaluation_job bucket role account region)) /\
  (forall s j, In s (all_steps P) -> step_job s = Some j -> NoDup (container_paths j)) /\
  (forall s, In s (all_steps P) -> NoDup (map fst (step_training_inputs s))).
Proof.
  split; [vm_compute; nodup|]. split; [vm_compute; nodup|]. split.
  - intros s j Hs Hj. rewrite all_steps_eq in Hs.
    repeat destruct Hs as [<-|Hs]; try contradiction; try discriminate Hj;
      injection Hj as <-; vm_compute; nodup.
  - intros s Hs. rewrite all_steps_eq in Hs.
    repeat destruct Hs as [<-|Hs]; try contradiction; vm_compute; nodup.
Qed.
End Extras.

Section Destinations.
Variables bucket role account region run_uuid best_model_uri : string.
Variable generated_output_uri : string -> string.

(** Every S3 destination the pipeline names (explicit processing outputs,
    estimator output paths and checkpoint URIs) lies under
    s3://{bucket}/{prefix}/outputs/pipelines/{uuid}/, and none is a
    location the standalone notebooks write (the preprocessing outputs, the
    copied model, the evaluation output). *)
Theorem pipeline_destinations_isolated :
  (forall d, In d (pipeline_destinations
                     (pipeline bucket role account region run_uuid generated_output_uri)) ->
     exists k, d = output_s3_uri bucket run_uuid ++ "/" ++ k) /\
  (forall d, In d (pipeline_destinations
                     (pipeline bucket role account region run_uuid generated_output_uri)) ->
     ~ In d (s3_writes (job_s3_events (Preprocessing.preprocessing_job bucket role))) /\
     d <> snd (Training.copy_best_model bucket best_model_uri) /\
     d <> Evaluation.s3_evaluation_output bucket).
Proof.
  rewrite pipeline_destinations_eq. split.
  - intros d Hd. cbn [map In] in Hd.
    repeat destruct Hd as [<-|Hd]; try contradiction; eexists;
      unfold workshop_s3, output_s3_uri; rewrite <- ?string_app_assoc; reflexivity.
  - intros d Hd. cbn [map In] in Hd.
    assert (Hw : s3_writes (job_s3_events (Preprocessing.preprocessing_job bucket role)) =
                 map (workshop_s3 bucket) ["outputs/train"; "outputs/valid"; "outputs/test";
                                           "outputs/manifest"])
      by (unfold workshop_s3; cbn; rewrite <- ?string_app_assoc; reflexivity).
    assert (Hm : snd (Training.copy_best_model bucket best_model_uri) =
                 workshop_s3 bucket "outputs/model/model.tar.gz")
      by (unfold workshop_s3; cbn; rewrite <- ?string_app_assoc; reflexivity).
    assert (He : Evaluation.s3_evaluation_output bucket = workshop_s3 bucket "outputs/evaluation")
      by (unfold workshop_s3; cbn; rewrite <- ?string_app_assoc; reflexivity).
    rewrite Hw, Hm, He.
    repeat destruct Hd as [<-|Hd]; try contradiction;
      (split; [cbn [map In]; intros Hin; repeat destruct Hin as [Hin|Hin];
               try contradiction; apply workshop_s3_inj in Hin; discriminate Hin|]);
      (split; intros Heq; apply workshop_s3_inj in Heq; discriminate Heq).
Qed.

(** Two runs of the pipeline notebook with different uuids (without '/')
    name disjoint sets of S3 destinations. *)
Theorem pipeline_runs_disjoint (u1 u2 : string) :
  string_has "/" u1 = false -> string_has "/" u2 = false -> u1 <> u2 ->
  forall d1 d2,
    In d1 (pipeline_destinations (pipeline bucket role account region u1 generated_output_uri)) ->
    In d2 (pipeline_destinations (pipeline bucket role account region u2 generated_output_uri)) ->
    d1 <> d2.
Proof.
  intros H1 H2 Hne d1 d2 Hd1 Hd2 Heq.
  rewrite pipeline_destinations_eq in Hd1, Hd2.
  apply in_map_iff in Hd1 as [k1 [<- _]]. apply in_map_iff in Hd2 as [k2 [<- _]].
  apply workshop_s3_inj, string_app_inj_l in Heq.
  exact (Hne (slash_free_prefix u1 u2 k1 k2 H1 H2 Heq)).
Qed.
End Destinations.

Section Execution_properties.
Variables bucket role account region run_uuid : string.
Variable generated_output_uri : string -> string.

(** An execution depends on the evaluation reports only through the two
    accuracy values: reports that agree on the accuracy of each training
    type give the same steps run to completion. *)
Theorem execution_depends_only_on_accuracies (r1 r2 : string -> string -> option json) :
  (forall t, In t training_options -> reported_accuracy r1 t = reported_accuracy r2 t) ->
  run_pipeline r1 (pipeline bucket role account region run_uuid generated_output_uri) =
  run_pipeline r2 (pipeline bucket role account region run_uuid generated_output_uri).
Proof.
  intros H. rewrite !run_pipeline_shape, !run_step_cond.
  rewrite (H "Spot"), (H "OnDemand") by (cbn; tauto). reflexivity.
Qed.

End Execution_properties.

(** * Witnesses and counterexamples *)

Lemma registration_gated_by_accuracy_witness :
  In "Spot" training_options /\
  In "RegisterSpotModel"
     (run_pipeline sample_reports
        (pipeline "sample-bucket" "sample-role" "123456789012" "eu-west-1" "run-1"
                  sample_generated_output_uri)).
Proof.
  split; [left; reflexivity|].
  destruct (registration_gated_by_accuracy "sample-bucket" "sample-role" "123456789012"
              "eu-west-1" "run-1" sample_generated_output_uri sample_reports "Spot"
              (or_introl eq_refl)) as (_ & _ & _ & _ & _ & Hiff).
  apply Hiff. exists (82 # 100). split; [reflexivity | unfold Qle; cbn; lia].
Defined.

Lemma dependency_chain_witness :
  In "Spot" training_options /\
  consistent_order sample_order
    (pipeline_edges (pipeline "sample-bucket" "sample-role" "123456789012" "eu-west-1"
                              "run-1" sample_generated_output_uri)) = true /\
  beforeb sample_order "BirdClassificationSpotEval" "RegisterSpotModel" = true.
Proof.
  split; [left; reflexivity|]. split; [vm_compute; reflexivity|].
  destruct (dependency_chain "sample-bucket" "sample-role" "123456789012" "eu-west-1"
              "run-1" sample_generated_output_uri "Spot" sample_order
              (or_introl eq_refl) ltac:(vm_compute; reflexivity))
    as (_ & _ & _ & _ & _ & _ & _ & H).
  exact H.
Defined.

(** C3 as stated fails: the standalone preprocessing run does not use the
    channel [validation] (it uses [valid]). *)
Lemma preprocessing_channels_counterexample :
  ~ (forall bucket role,
       uses_channels (Preprocessing.preprocessing_job bucket role)
         ["train"; "validation"; "test"; "manifest"]).
Proof.
  intros H. destruct (H "sample-bucket" "sample-role") as [Hsrc _].
  cbn in Hsrc. discriminate Hsrc.
Qed.

(** C4 as stated fails: the deployment notebook (a later module) reads
    s3://{bucket}/cv-sagemaker-immersionday/full/data/classes.txt, which
    is neither a location an earlier module wrote nor under .../outputs. *)
Lemma s3_locations_counterexample :
  ~ (forall bucket role account region best_model_uri i evs r,
       (0 < i)%nat ->
       nth_error (notebook_s3_events bucket role account region best_model_uri) i
         = Some evs ->
       In r (s3_reads evs) ->
       (exists j evs', (j < i)%nat /\
          nth_error (notebook_s3_events bucket role account region best_model_uri) j
            = Some evs' /\ In r (s3_writes evs')) /\
       String.prefix ("s3://" ++ bucket ++ "/cv-sagemaker-immersionday/outputs") r = true).
Proof.
  intros H.
  destruct (H "b" "r" "a" "g" "best" 3%nat (Deployment.s3_events "b")
              "s3://b/cv-sagemaker-immersionday/full/data/classes.txt")
    as [_ Hp]; [lia | reflexivity | cbn; tauto |].
  discriminate Hp.
Qed.

(** C6 as stated fails: with the arguments and output destinations made
    equal, the standalone job and the pipeline's evaluation job still
    differ (base job name, instance count, session, input sources). *)
Lemma evaluation_jobs_counterexample :
  ~ (forall bucket role account region run_uuid t,
       with_arguments_and_destinations (Evaluation.evaluation_job bucket role account region)
         None None = eval_job bucket role account region run_uuid t).
Proof.
  intros H. specialize (H "sample-bucket" "sample-role" "123456789012" "eu-west-1" "run-1"
                          "Spot").
  cbn in H. discriminate H.
Qed.

(** C8 as stated fails: after option 1 deploys endpoint "bird-endpoint",
    the predictor used for inference and [tf_endpoint_name] name the
    placeholder, not the deployed endpoint. *)
Lemma deployment_endpoint_counterexample :
  let st := Deployment.run "sample-bucket" "sample-role" (fun _ _ => "bird-endpoint")
              Option1Serverless in
  map snd (Deployment.endpoints st) = ["bird-endpoint"] /\
  Deployment.tf_endpoint_name st <> Some "bird-endpoint" /\
  Deployment.predictor st <> Some (mkPredictor "bird-endpoint").
Proof.
  cbv zeta. split; [reflexivity|]. split; cbn; discriminate.
Qed.

Lemma processing_instance_count_shared_witness :
  In (step_eval "sample-bucket" "sample-role" "123456789012" "eu-west-1" "run-1" "Spot")
     (pl_steps (pipeline "sample-bucket" "sample-role" "123456789012" "eu-west-1" "run-1"
                         sample_generated_output_uri)) /\
  resolve (pl_parameters (pipeline "sample-bucket" "sample-role" "123456789012" "eu-west-1"
                                   "run-1" sample_generated_output_uri))
          (fun n => if String.eqb n "ProcessingInstanceCount" then Some (PInt 2) else None)
          (processor_instance_count
             (pj_processor (eval_job "sample-bucket" "sample-role" "123456789012" "eu-west-1"
                                     "run-1" "Spot"))) = PInt 2.
Proof.
  split; [cbn [pipeline pl_steps steps training_options map app In]; right; right; right; left; reflexivity|].
  apply (processing_instance_count_shared "sample-bucket" "sample-role" "123456789012"
           "eu-west-1" "run-1" sample_generated_output_uri
           (fun n => if String.eqb n "ProcessingInstanceCount" then Some (PInt 2) else None)
           (step_eval "sample-bucket" "sample-role" "123456789012" "eu-west-1" "run-1" "Spot")).
  - cbn [pipeline pl_steps steps training_options map app In]. right; right; right; left; reflexivity.
  - reflexivity.
Defined.

Lemma pipeline_runs_disjoint_witness :
  string_has "/" "run-1" = false /\ string_has "/" "run-2" = false /\ "run-1" <> "run-2" /\
  workshop_s3 "sample-bucket" "outputs/pipelines/run-1/train" <>
  workshop_s3 "sample-bucket" "outputs/pipelines/run-2/train".
Proof.
  split; [reflexivity|]. split; [reflexivity|]. split; [discriminate|].
  apply (pipeline_runs_disjoint "sample-bucket" "sample-role" "123456789012" "eu-west-1"
           sample_generated_output_uri "run-1" "run-2" eq_refl eq_refl ltac:(discriminate)).
  - rewrite pipeline_destinations_eq. left. reflexivity.
  - rewrite pipeline_destinations_eq. left. reflexivity.
Defined.

Lemma execution_depends_only_on_accuracies_witness :
  (forall t, In t training_options ->
     reported_accuracy sample_reports t = reported_accuracy sample_reports_with_loss t) /\
  run_pipeline sample_reports
    (pipeline "sample-bucket" "sample-role" "123456789012" "eu-west-1" "run-1"
              sample_generated_output_uri) =
  run_pipeline sample_reports_with_loss
    (pipeline "sample-bucket" "sample-role" "123456789012" "eu-west-1" "run-1"
              sample_generated_output_uri).
Proof.
  assert (H : forall t, In t training_options ->
     reported_accuracy sample_reports t = reported_accuracy sample_reports_with_loss t)
    by (intros t [<-|[<-|[]]]; vm_compute; reflexivity).
  split; [exact H|].
  exact (execution_depends_only_on_accuracies "sample-bucket" "sample-role" "123456789012"
           "eu-west-1" "run-1" sample_generated_output_uri _ _ H).
Defined.
